(** * CopyQ clipboard monitor

    A shallow embedding of the monitor process of CopyQ
    ([src/app/clipboardmonitor.cpp]) and of the framed transport it talks
    through ([src/common/clientsocket.h]), with the properties the design
    document states about them.

    Qt containers are embedded as stdpp finite maps: a [QVariantMap] is a
    [gmap string QVariant], a [QMap<PlatformClipboard::Mode, QVariantMap>] is a
    [gmap Mode (gmap string QVariant)].  Calls on collaborators (the socket,
    the platform clipboard, the logger) are recorded in a trace of [Effect]s
    returned next to the new state. *)

From Stdlib Require Import ZArith Lia List Strings.Byte Strings.Ascii Strings.String.
From stdpp Require Import gmap strings list fin_maps.

Local Open Scope string_scope.
Local Open Scope nat_scope.
Local Open Scope list_scope.

(** ** Qt values *)

Abbreviation QByteArray := (list byte).
Abbreviation QString := string.
Abbreviation QStringList := (list string).

#[global] Instance byte_eq_decision : EqDecision byte := byte_eq_dec.

(** [QVariant], with the alternatives the monitor stores in its maps: clipboard
    content is a byte array, the mode name is a string, the ["formats"] setting
    is a string list; a default-constructed variant is invalid.  Two variants
    are equal when they hold the same alternative with the same content; the
    conversions Qt tries between variants of different types are not
    modelled. *)
Inductive QVariant :=
| Invalid
| VByteArray (b : QByteArray)
| VString (s : QString)
| VStringList (l : QStringList).

#[global] Instance QVariant_eq_decision : EqDecision QVariant.
Proof. solve_decision. Defined.

Abbreviation QVariantMap := (gmap string QVariant).

(** [QString::toUtf8]: strings of the model are byte strings already. *)
Definition toUtf8 (s : QString) : QByteArray := list_byte_of_string s.

(** [QVariant::toByteArray]: the bytes of a byte array or of a string, an empty
    array for a variant that has no conversion. *)
Definition toByteArray (v : QVariant) : QByteArray :=
  match v with
  | VByteArray b => b
  | VString s => toUtf8 s
  | Invalid | VStringList _ => []
  end.

(** [QVariant::toStringList]: the list itself, a one-element list for a string,
    an empty list otherwise. *)
Definition toStringList (v : QVariant) : QStringList :=
  match v with
  | VStringList l => l
  | VString s => [s]
  | Invalid | VByteArray _ => []
  end.

Definition isEmpty {A} (l : list A) : bool :=
  match l with [] => true | _ => false end.

(** [QMap::contains] and [QMap::value] (a default-constructed value for a
    missing key). *)
Definition contains `{Countable K} {V} (m : gmap K V) (key : K) : bool :=
  bool_decide (is_Some (m !! key)).

Definition value (m : gmap string QVariant) (key : string) : QVariant :=
  default Invalid (m !! key).

(** [QString::startsWith]. *)
Definition startsWith (s pre : string) : bool := String.prefix pre s.

(** ** MIME names

    Modelled from the spec: [common/mimetypes.h] is not among the sources at
    hand.  The design document says that internal-metadata formats are
    recognised by a reserved name prefix and that the mode name, the owner and
    the window title are such metadata; the strings are those CopyQ uses. *)
Definition COPYQ_MIME_PREFIX : string := "application/x-copyq-".
Definition mimeWindowTitle : string := (COPYQ_MIME_PREFIX ++ "owner-window-title")%string.
Definition mimeOwner : string := (COPYQ_MIME_PREFIX ++ "owner")%string.
Definition mimeClipboardMode : string := (COPYQ_MIME_PREFIX ++ "clipboard-mode")%string.

(** ** Change detection *)

(** [hasSameData], [clipboardmonitor.cpp:34].  Each [for] loop returns [false]
    from the first entry that meets its condition, which is [existsb] over the
    entries. *)
Definition hasSameData (data lastData : gmap string QVariant) : bool :=
  if existsb
       (λ it, let format := it.1 in
              negb (startsWith format COPYQ_MIME_PREFIX)
              && negb (contains data format))
       (map_to_list lastData)
  then false
  else if existsb
       (λ it, let format := it.1 in
              negb (startsWith format COPYQ_MIME_PREFIX)
              && negb (isEmpty (toByteArray (value data format)))
              && bool_decide (value data format ≠ value lastData format))
       (map_to_list data)
  then false
  else true.

(** ** The monitor *)

(** [PlatformClipboard::Mode]. *)
Inductive Mode := Clipboard | Selection | FindBuffer.

#[global] Instance Mode_eq_decision : EqDecision Mode.
Proof. solve_decision. Defined.

#[global] Instance Mode_countable : Countable Mode.
Proof.
  refine (inj_countable'
            (λ m, match m with Clipboard => 0 | Selection => 1 | FindBuffer => 2 end)
            (λ n, match n with 0 => Clipboard | 1 => Selection | _ => FindBuffer end)
            _).
  by intros [].
Defined.

(** Modelled from the spec: [common/monitormessagecode.h] is not among the
    sources at hand.  The codes are the application-defined enumeration of the
    design document, numbered in the order it lists them; the handlers only
    compare them for equality. *)
Definition MonitorPing : Z := 0.
Definition MonitorPong : Z := 1.
Definition MonitorSettings : Z := 2.
Definition MonitorChangeClipboard : Z := 3.
Definition MonitorChangeSelection : Z := 4.
Definition MonitorClipboardChanged : Z := 5.

Inductive LogLevel := LogError | LogDebug.

(** The texts handed to the logger, one constructor per call site, with the
    arguments the text is formatted from. *)
Inductive LogMsg :=
| IgnoringUnchanged (what : string)
| HasChanged (what : string)
| LoadingConfiguration
| ConfigurationEntry (key : string) (val : QVariant)
| Configured
| ReceivedChangeRequest (what : string) (size : nat)
| UnknownMessageCode (messageCode : Z).

(** Calls on the collaborators of the monitor. *)
Inductive Effect :=
| SendMessage (message : QByteArray) (messageCode : Z)
| SetData (mode : Mode) (data : QVariantMap)
| LoadSettings (settings : QVariantMap)
| COPYQ_LOG (msg : LogMsg)
| Log (msg : LogMsg) (level : LogLevel)
| Exit (exitCode : Z).

(** The fields of [ClipboardMonitor] the handlers use.  [m_timerSetNewClipboard]
    is [QTimer::isActive] of the single-shot timer; [changedConnections] counts
    the connections from the clipboard's [changed(Mode)] signal to the slot
    [onClipboardChanged(Mode)]. *)
Record ClipboardMonitor := {
  m_formats : QStringList;
  m_lastData : gmap Mode (gmap string QVariant);
  m_newData : gmap Mode (gmap string QVariant);
  m_timerSetNewClipboard : bool;
  changedConnections : nat;
}.

Definition set_m_formats (this : ClipboardMonitor) (x : QStringList) :=
  {| m_formats := x; m_lastData := m_lastData this; m_newData := m_newData this;
     m_timerSetNewClipboard := m_timerSetNewClipboard this;
     changedConnections := changedConnections this |}.

Definition set_m_lastData (this : ClipboardMonitor) (x : gmap Mode (gmap string QVariant)) :=
  {| m_formats := m_formats this; m_lastData := x; m_newData := m_newData this;
     m_timerSetNewClipboard := m_timerSetNewClipboard this;
     changedConnections := changedConnections this |}.

Definition set_m_newData (this : ClipboardMonitor) (x : gmap Mode (gmap string QVariant)) :=
  {| m_formats := m_formats this; m_lastData := m_lastData this; m_newData := x;
     m_timerSetNewClipboard := m_timerSetNewClipboard this;
     changedConnections := changedConnections this |}.

Definition set_m_timerSetNewClipboard (this : ClipboardMonitor) (x : bool) :=
  {| m_formats := m_formats this; m_lastData := m_lastData this;
     m_newData := m_newData this; m_timerSetNewClipboard := x;
     changedConnections := changedConnections this |}.

Definition set_changedConnections (this : ClipboardMonitor) (x : nat) :=
  {| m_formats := m_formats this; m_lastData := m_lastData this;
     m_newData := m_newData this;
     m_timerSetNewClipboard := m_timerSetNewClipboard this;
     changedConnections := x |}.

(** The monitor as its constructor leaves it: nothing stored, nothing pending,
    the timer initialised but not started, the clipboard not connected. *)
Definition initial : ClipboardMonitor :=
  {| m_formats := []; m_lastData := ∅; m_newData := ∅;
     m_timerSetNewClipboard := false; changedConnections := 0 |}.

(** What the platform answers while one change is handled:
    [m_clipboard->data(mode, formats)] and the title of the window returned by
    [getCurrentWindow()], if there is one. *)
Record Platform := {
  clipboardData : Mode → QStringList → gmap string QVariant;
  currentWindowTitle : option QString;
}.

(** [QMap::operator[]] on a non-const map inserts a default-constructed value
    for a missing key. *)
Definition subscript (m : gmap Mode (gmap string QVariant)) (mode : Mode) :
    gmap Mode (gmap string QVariant) :=
  match m !! mode with
  | Some _ => m
  | None => <[mode := ∅]> m
  end.

(** [QObject::connect] with [Qt::UniqueConnection]: the connection is not made
    when the same one exists. *)
Definition connectUnique (connections : nat) : nat :=
  match connections with
  | 0 => 1
  | _ => connections
  end.

Section Monitor.

(** Collaborators whose code is outside the monitor: the logger's level test,
    the item serialisation of [item/serialize.h], and [QDataStream >>] into a
    [QVariantMap], which is [None] when the stream's status is not [Ok] (the
    operator then leaves the map empty). *)
Variable hasLogLevel : LogLevel → bool.
Variable serializeData : gmap string QVariant → QByteArray.
Variable deserializeData : QByteArray → gmap string QVariant.
Variable readSettings : QByteArray → option (gmap string QVariant).

(** [ClipboardMonitor::onClipboardChanged], [clipboardmonitor.cpp:78]. *)
Definition onClipboardChanged (p : Platform) (this : ClipboardMonitor) (mode : Mode) :
    ClipboardMonitor * list Effect :=
  let data := clipboardData p mode (m_formats this) in
  let this := set_m_lastData this (subscript (m_lastData this) mode) in
  let lastData := default ∅ (m_lastData this !! mode) in
  if hasSameData data lastData then
    (this, [COPYQ_LOG (IgnoringUnchanged
                         (if decide (mode = Clipboard) then "clipboard" else "selection"))])
  else
    let data :=
      if decide (mode ≠ Clipboard) then
        let modeName := if decide (mode = Selection) then "selection" else "find buffer" in
        <[mimeClipboardMode := VString modeName]> data
      else data in
    let data :=
      if negb (contains data mimeOwner) && negb (contains data mimeWindowTitle) then
        match currentWindowTitle p with
        | Some title => <[mimeWindowTitle := VByteArray (toUtf8 title)]> data
        | None => data
        end
      else data in
    (set_m_lastData this (<[mode := data]> (m_lastData this)),
     [COPYQ_LOG (HasChanged (if decide (mode = Clipboard) then "Clipboard" else "Selection"));
      SendMessage (serializeData data) MonitorClipboardChanged]).

(** [ClipboardMonitor::onMessageReceived], [clipboardmonitor.cpp:111].  The
    configuration lines are logged in the order of [map_to_list], not in key
    order. *)
Definition onMessageReceived (this : ClipboardMonitor) (message : QByteArray)
    (messageCode : Z) : ClipboardMonitor * list Effect :=
  if decide (messageCode = MonitorPing) then
    (this, [SendMessage [] MonitorPong])
  else if decide (messageCode = MonitorSettings) then
    let settings := default ∅ (readSettings message) in
    let lines :=
      if hasLogLevel LogDebug then
        COPYQ_LOG LoadingConfiguration
          :: map (λ it, COPYQ_LOG (ConfigurationEntry it.1 it.2)) (map_to_list settings)
      else [] in
    let this :=
      if contains settings "formats" then
        set_m_formats this (toStringList (value settings "formats"))
      else this in
    let this := set_changedConnections this (connectUnique (changedConnections this)) in
    (this, lines ++ [LoadSettings settings; COPYQ_LOG Configured])
  else if bool_decide (messageCode = MonitorChangeClipboard)
          || bool_decide (messageCode = MonitorChangeSelection) then
    let received :=
      COPYQ_LOG (ReceivedChangeRequest
                   (if decide (messageCode = MonitorChangeClipboard)
                    then "clipboard" else "selection")
                   (length message)) in
    let data := deserializeData message in
    let this :=
      if decide (messageCode = MonitorChangeClipboard) then
        set_m_newData this (<[Clipboard := data]> (m_newData this))
      else this in
    let this :=
      if decide (messageCode = MonitorChangeSelection) then
        set_m_newData this (<[Selection := data]> (m_newData this))
      else this in
    (set_m_timerSetNewClipboard this true, [received])
  else
    (this, [Log (UnknownMessageCode messageCode) LogError]).

(** [ClipboardMonitor::onDisconnected] and [onConnectionFailed]. *)
Definition onDisconnected (this : ClipboardMonitor) : ClipboardMonitor * list Effect :=
  (this, [Exit 0]).

Definition onConnectionFailed (this : ClipboardMonitor) : ClipboardMonitor * list Effect :=
  (this, [Exit 1]).

(** [ClipboardMonitor::setNewClipboard(PlatformClipboard::Mode)],
    [clipboardmonitor.cpp:180]; [QMap::take] removes the entry and returns its
    value. *)
Definition setNewClipboardMode (this : ClipboardMonitor) (mode : Mode) :
    ClipboardMonitor * list Effect :=
  match m_newData this !! mode with
  | Some data => (set_m_newData this (delete mode (m_newData this)), [SetData mode data])
  | None => (this, [])
  end.

(** [ClipboardMonitor::setNewClipboard()], [clipboardmonitor.cpp:171]. *)
Definition setNewClipboard (this : ClipboardMonitor) : ClipboardMonitor * list Effect :=
  if m_timerSetNewClipboard this then (this, [])
  else
    let '(this, e1) := setNewClipboardMode this Clipboard in
    let '(this, e2) := setNewClipboardMode this Selection in
    (this, e1 ++ e2).

(** The single-shot timer expires: it is no longer active when its slot
    [setNewClipboard()] runs, and it does not expire unless started. *)
Definition timeout (this : ClipboardMonitor) : ClipboardMonitor * list Effect :=
  if m_timerSetNewClipboard this then
    setNewClipboard (set_m_timerSetNewClipboard this false)
  else (this, []).

(** The clipboard emits [changed(mode)]: the slot runs once per connection. *)
Fixpoint emitChanged (connections : nat) (p : Platform) (this : ClipboardMonitor)
    (mode : Mode) : ClipboardMonitor * list Effect :=
  match connections with
  | 0 => (this, [])
  | S n =>
      let '(this, e1) := onClipboardChanged p this mode in
      let '(this, e2) := emitChanged n p this mode in
      (this, e1 ++ e2)
  end.

(** What the event loop delivers to the monitor. *)
Inductive Event :=
| MessageReceived (message : QByteArray) (messageCode : Z)
| ClipboardChanged (p : Platform) (mode : Mode)
| TimerExpired.

Definition handle (this : ClipboardMonitor) (ev : Event) : ClipboardMonitor * list Effect :=
  match ev with
  | MessageReceived message messageCode => onMessageReceived this message messageCode
  | ClipboardChanged p mode => emitChanged (changedConnections this) p this mode
  | TimerExpired => timeout this
  end.

(** Events are handled one at a time, in arrival order. *)
Fixpoint run (this : ClipboardMonitor) (evs : list Event) : ClipboardMonitor * list Effect :=
  match evs with
  | [] => (this, [])
  | ev :: evs =>
      let '(this, e1) := handle this ev in
      let '(this, e2) := run this evs in
      (this, e1 ++ e2)
  end.

(** The calls of [setData] for one mode, and the messages sent, in a trace. *)
Definition setDataCalls (mode : Mode) (trace : list Effect) : list (gmap string QVariant) :=
  flat_map (λ e, match e with
                 | SetData mode' data => if decide (mode' = mode) then [data] else []
                 | _ => []
                 end) trace.

Definition sentMessages (trace : list Effect) : list (QByteArray * Z) :=
  flat_map (λ e, match e with
                 | SendMessage message messageCode => [(message, messageCode)]
                 | _ => []
                 end) trace.

End Monitor.

(** What holds of the pending writes between two events: none is for the find
    buffer, and none is left once the timer has expired. *)
Definition pendingInvariant (this : ClipboardMonitor) : Prop :=
  m_newData this !! FindBuffer = None
  ∧ (m_timerSetNewClipboard this = false → m_newData this = ∅).

(** The formats of a snapshot that are not internal metadata. *)
Definition realFormats (m : gmap string QVariant) : gmap string QVariant :=
  filter (λ it, startsWith it.1 COPYQ_MIME_PREFIX = false) m.

(** ** Reading a list of events *)

Definition isPing (ev : Event) : bool :=
  match ev with
  | MessageReceived _ messageCode => bool_decide (messageCode = MonitorPing)
  | _ => false
  end.

Definition isSettings (ev : Event) : bool :=
  match ev with
  | MessageReceived _ messageCode => bool_decide (messageCode = MonitorSettings)
  | _ => false
  end.

Definition isTimerExpired (ev : Event) : bool :=
  match ev with
  | TimerExpired => true
  | _ => false
  end.

Definition isChangeOf (mode : Mode) (ev : Event) : bool :=
  match ev with
  | ClipboardChanged _ mode' => bool_decide (mode' = mode)
  | _ => false
  end.

(** The payload of [ev] when it is a request to change [mode]. *)
Definition requestFor (mode : Mode) (ev : Event) : option QByteArray :=
  match ev with
  | MessageReceived message messageCode =>
      match mode with
      | Clipboard =>
          if decide (messageCode = MonitorChangeClipboard) then Some message else None
      | Selection =>
          if decide (messageCode = MonitorChangeSelection) then Some message else None
      | FindBuffer => None
      end
  | _ => None
  end.

Definition lastRequest (mode : Mode) (evs : list Event) : option QByteArray :=
  last (omap (requestFor mode) evs).

(** The replies to pings among the messages sent. *)
Definition pongs (sent : list (QByteArray * Z)) : list (QByteArray * Z) :=
  filter (λ mc, mc.2 = MonitorPong) sent.

(** ** The framed transport *)

Module Transport.

(** Modelled from the spec: [clientsocket.cpp] is not among the sources at
    hand; the header [clientsocket.h] declares the reassembly state
    ([m_hasMessageLength], [m_messageLength], [m_message], [m_closed]) and the
    signal [messageReceived(message, messageCode)].  Wire format and
    reassembly follow sections 4.1 and 6 of the design document:
    [message := length(uint32) code(int32) payload], the length counting code
    and payload.  The byte order, which the document leaves to be fixed once,
    is big-endian as in its scenario A. *)
Record Message := { code : Z; payload : QByteArray }.

Definition byteOf (n : Z) : byte :=
  default x00 (Byte.of_N (Z.to_N (n mod 256)%Z)).

Definition valueOf (b : byte) : Z := Z.of_N (Byte.to_N b).

(** A 32-bit unsigned value as four bytes and back. *)
Definition encode32 (n : Z) : QByteArray :=
  [byteOf (n / 2 ^ 24)%Z; byteOf (n / 2 ^ 16)%Z; byteOf (n / 2 ^ 8)%Z; byteOf n].

Definition decode32 (b3 b2 b1 b0 : byte) : Z :=
  (valueOf b3 * 2 ^ 24 + valueOf b2 * 2 ^ 16 + valueOf b1 * 2 ^ 8 + valueOf b0)%Z.

(** Conversions between [qint32] and [quint32]. *)
Definition toUnsigned (n : Z) : Z := (n mod 2 ^ 32)%Z.

Definition toSigned (u : Z) : Z := if (u <? 2 ^ 31)%Z then u else (u - 2 ^ 32)%Z.

(** Modelled from the spec: the bytes [sendMessage] writes, a 4-byte length
    prefix, then the code, then the payload. *)
Definition sendMessage (m : Message) : QByteArray :=
  encode32 (toUnsigned (4 + Z.of_nat (length (payload m)))%Z)
    ++ encode32 (toUnsigned (code m)) ++ payload m.

Record ClientSocket := {
  m_closed : bool;
  m_hasMessageLength : bool;
  m_messageLength : Z;
  m_message : QByteArray;
}.

Definition start : ClientSocket :=
  {| m_closed := false; m_hasMessageLength := false; m_messageLength := 0;
     m_message := [] |}.

(** A framing error: the socket is closed and the partial buffer discarded. *)
Definition failed (this : ClientSocket) : ClientSocket :=
  {| m_closed := true; m_hasMessageLength := false;
     m_messageLength := m_messageLength this; m_message := [] |}.

(** Modelled from the spec: one step of the reassembly.  When the prefix has
    not been read and the buffer holds four bytes, it is decoded and
    remembered; when it has been read and the buffer holds the declared number
    of bytes, exactly one message is split off, decoded and emitted, the
    surplus staying in the buffer.  [None] when neither applies.  A body too
    short to hold the code cannot be decoded and is a framing error. *)
Definition advance (this : ClientSocket) : option (ClientSocket * list Message) :=
  if m_hasMessageLength this then
    let n := Z.to_nat (m_messageLength this) in
    if decide (n ≤ length (m_message this)) then
      match take n (m_message this) with
      | c3 :: c2 :: c1 :: c0 :: payload =>
          Some ({| m_closed := m_closed this; m_hasMessageLength := false;
                   m_messageLength := m_messageLength this;
                   m_message := drop n (m_message this) |},
                [{| code := toSigned (decode32 c3 c2 c1 c0); payload := payload |}])
      | _ => Some (failed this, [])
      end
    else None
  else
    match m_message this with
    | b3 :: b2 :: b1 :: b0 :: rest =>
        Some ({| m_closed := m_closed this; m_hasMessageLength := true;
                 m_messageLength := decode32 b3 b2 b1 b0; m_message := rest |},
              [])
    | _ => None
    end.

(** The steps are repeated while one applies: the surplus is the start of the
    next message.  Every step shortens the buffer or clears the length flag, so
    [fuel] above the buffer's length is never used up. *)
Fixpoint drain (fuel : nat) (this : ClientSocket) : ClientSocket * list Message :=
  match fuel with
  | 0 => (this, [])
  | S fuel =>
      match advance this with
      | None => (this, [])
      | Some (this, out) =>
          let '(this, rest) := drain fuel this in
          (this, out ++ rest)
      end
  end.

(** [m_message.append(chunk)]. *)
Definition append (this : ClientSocket) (chunk : QByteArray) : ClientSocket :=
  {| m_closed := m_closed this; m_hasMessageLength := m_hasMessageLength this;
     m_messageLength := m_messageLength this;
     m_message := m_message this ++ chunk |}.

(** The loop run to its end. *)
Definition settle (this : ClientSocket) : ClientSocket * list Message :=
  drain (S (length (m_message this))) this.

(** Modelled from the spec: [onReadyRead], given the bytes that arrived.  They
    are appended to the buffer, which is then drained; a closed socket reads
    nothing. *)
Definition onReadyRead (this : ClientSocket) (chunk : QByteArray) :
    ClientSocket * list Message :=
  if m_closed this then (this, [])
  else settle (append this chunk).

(** The bytes arrive in chunks; the messages emitted along the way. *)
Fixpoint receive (this : ClientSocket) (chunks : list QByteArray) :
    ClientSocket * list Message :=
  match chunks with
  | [] => (this, [])
  | chunk :: chunks =>
      let '(this, out) := onReadyRead this chunk in
      let '(this, rest) := receive this chunks in
      (this, out ++ rest)
  end.

(** A message whose code is a [qint32] and whose body length fits the
    prefix. *)
Definition wellFormed (m : Message) : Prop :=
  (- 2 ^ 31 ≤ code m < 2 ^ 31)%Z ∧ (4 + Z.of_nat (length (payload m)) < 2 ^ 32)%Z.

(** What bounds the number of steps still possible. *)
Definition measure (this : ClientSocket) : nat :=
  length (m_message this) + (if m_hasMessageLength this then 1 else 0).

End Transport.

(** ** The style sheets of a theme *)

Module Theme.

Section StyleSheet.

(** What the style sheet is made from: the text of a theme option,
    [themeValue(name).toString()], whose [Option] class is in
    [common/option.h], and the name of the colour an expression stands for,
    [serializeColor(evalColor(var, m_theme))], which is computed in floating
    point and is kept a parameter. *)
Variable themeText : string → string.
Variable colorName : string → string.

(** [QString::replace(position, n, after)], for [position + n] within the
    string; [String.index] and [substring] stand for [QString::indexOf] and
    [QString::mid]. *)
Definition replace (s : string) (position n : nat) (after : string) : string :=
  (substring 0 position s ++ after
     ++ substring (position + n) (String.length s - (position + n)) s)%string.

(** The [forever] loop of [themeStyleSheet], [configtabappearance.cpp:620],
    from position [i]. *)
Fixpoint substitute (fuel : nat) (css : string) (i : nat) : string :=
  match fuel with
  | 0 => css
  | S fuel =>
      match index i "${" css with
      | None => css
      | Some i =>
          match index (i + 2) "}" css with
          | None => css
          | Some j =>
              let var := substring (i + 2) (j - i - 2) css in
              let name := colorName var in
              substitute fuel (replace css i (j - i + 1) name) (i + String.length name)
          end
      end
  end.

(** [ConfigTabAppearance::themeStyleSheet]. *)
Definition themeStyleSheet (name : string) : string :=
  let css := themeText name in
  substitute (S (String.length css)) css 0.

(** A text with placeholders [${var}], each after a text of its own, and the
    same text with the colours in their place. *)
Fixpoint template (parts : list (string * string)) (rest : string) : string :=
  match parts with
  | [] => rest
  | (text, var) :: parts => (text ++ "${" ++ var ++ "}" ++ template parts rest)%string
  end.

Fixpoint filled (parts : list (string * string)) (rest : string) : string :=
  match parts with
  | [] => rest
  | (text, var) :: parts => (text ++ colorName var ++ filled parts rest)%string
  end.

(** A text the loop leaves as it is: it holds no opening, or after its first
    opening no closing brace. *)
Definition inert (rest : string) : Prop :=
  index 0 "${" rest = None
  ∨ ∃ text tail, rest = (text ++ "${" ++ tail)%string
                 ∧ index 0 "${" text = None ∧ index 0 "}" tail = None.

End StyleSheet.
End Theme.

(** ** Sample inputs *)

(** A byte array holding the text [s]. *)
Definition bytes (s : string) : QVariant := VByteArray (list_byte_of_string s).

(** Collaborators for the examples: a logger with every level off, an item
    format that carries the payload under [text/plain], and a settings stream
    that decodes nothing. *)
Definition quiet : LogLevel → bool := λ _, false.

Definition plainText : QByteArray → gmap string QVariant :=
  λ message, {["text/plain" := VByteArray message]}.

Definition noBytes : gmap string QVariant → QByteArray := λ _, [].

Definition undecodable : QByteArray → option (gmap string QVariant) := λ _, None.

(** A platform whose clipboard holds [data] in every mode, with a window
    titled [Editor] in front. *)
Definition holding (data : gmap string QVariant) : Platform :=
  {| clipboardData := λ _ _, data; currentWindowTitle := Some "Editor" |}.

(** A monitor that has stored [lastData] for the clipboard. *)
Definition having (lastData : gmap string QVariant) : ClipboardMonitor :=
  set_m_lastData initial {[Clipboard := lastData]}.

(** The bytes of a list of messages, one byte per chunk. *)
Definition byteByByte (ms : list Transport.Message) : list QByteArray :=
  map (λ b, [b]) (flat_map Transport.sendMessage ms).

(** * Properties *)

Example hasSameData_metadata_only :
  hasSameData
    (<["text/plain" := bytes "hello"]> (<["application/x-copyq-note" := bytes "n"]> ∅))
    (<["text/plain" := bytes "hello"]> ∅) = true.
Proof. vm_compute. reflexivity. Qed.

Example hasSameData_disappeared :
  hasSameData
    (<["text/plain" := bytes "hello"]> ∅)
    (<["text/plain" := bytes "hello"]> (<["text/html" := bytes "<b>"]> ∅)) = false.
Proof. vm_compute. reflexivity. Qed.

Example hasSameData_value_changed :
  hasSameData {["text/plain" := bytes "world"]} {["text/plain" := bytes "hello"]} = false.
Proof. vm_compute. reflexivity. Qed.

Example no_early_decode :
  (Transport.receive Transport.start [[x00; x00; x00; x05; x00; x00]; [x00; x01]]).2 = []
  ∧ (Transport.receive Transport.start
       [[x00; x00; x00; x05; x00; x00]; [x00; x01]; [x41; x00]]).2
    = [{| Transport.code := 1; Transport.payload := [x41] |}].
Proof. vm_compute. done. Qed.

Example scenario_A :
  (Transport.receive Transport.start
     [[x00; x00; x00; x05; x00; x00; x00; x01; x41]]).2
  = [{| Transport.code := 1; Transport.payload := [x41] |}].
Proof. vm_compute. reflexivity. Qed.

(** ** Change detection *)

Lemma existsb_map_to_list_false {V} (m : gmap string V) (f : string * V → bool) :
  existsb f (map_to_list m) = false ↔ ∀ k v, m !! k = Some v → f (k, v) = false.
Proof.
  split.
  - intros Hex k v Hkv.
    destruct (f (k, v)) eqn:Hf; [|done].
    assert (existsb f (map_to_list m) = true) as Habs; [|congruence].
    apply existsb_exists. exists (k, v). split; [|done].
    apply list_elem_of_In, elem_of_map_to_list. done.
  - intros Hall.
    destruct (existsb f (map_to_list m)) eqn:Hex; [|done].
    apply existsb_exists in Hex as [[k v] [Hin Hf]].
    apply list_elem_of_In, elem_of_map_to_list in Hin.
    rewrite (Hall k v Hin) in Hf. done.
Qed.

Lemma isEmpty_true {A} (l : list A) : isEmpty l = true ↔ l = [].
Proof. destruct l; simpl; split; congruence. Qed.

Lemma contains_true `{Countable K} {V} (m : gmap K V) (key : K) :
  contains m key = true ↔ is_Some (m !! key).
Proof. unfold contains. rewrite bool_decide_eq_true. done. Qed.

Lemma contains_false `{Countable K} {V} (m : gmap K V) (key : K) :
  contains m key = false ↔ m !! key = None.
Proof.
  unfold contains. rewrite bool_decide_eq_false, eq_None_not_Some. done.
Qed.

(** The verdict of [hasSameData], read off its two loops. *)
Lemma hasSameData_true (data lastData : gmap string QVariant) :
  hasSameData data lastData = true ↔
    (∀ format, is_Some (lastData !! format) →
               startsWith format COPYQ_MIME_PREFIX = false →
               is_Some (data !! format))
    ∧ (∀ format v, data !! format = Some v →
                   startsWith format COPYQ_MIME_PREFIX = false →
                   toByteArray v ≠ [] →
                   value lastData format = v).
Proof.
  unfold hasSameData.
  destruct (existsb _ (map_to_list lastData)) eqn:H1.
  - split; [done|]. intros [Hkeys _]. exfalso.
    apply existsb_exists in H1 as [[k v] [Hin Hf]].
    apply list_elem_of_In, elem_of_map_to_list in Hin. simpl in Hf.
    apply andb_true_iff in Hf as [Hp Hc].
    apply negb_true_iff in Hp. apply negb_true_iff, contains_false in Hc.
    destruct (Hkeys k) as [? ?]; [by eexists|done|congruence].
  - rewrite existsb_map_to_list_false in H1.
    destruct (existsb _ (map_to_list data)) eqn:H2.
    + split; [done|]. intros [_ Hvals]. exfalso.
      apply existsb_exists in H2 as [[k v] [Hin Hf]].
      apply list_elem_of_In, elem_of_map_to_list in Hin. simpl in Hf.
      apply andb_true_iff in Hf as [Hf Hne].
      apply andb_true_iff in Hf as [Hp He].
      apply negb_true_iff in Hp. apply negb_true_iff in He.
      apply bool_decide_eq_true in Hne.
      unfold value in He, Hne at 1. rewrite Hin in He, Hne. simpl in He, Hne.
      apply Hne. symmetry. apply Hvals; [done..|].
      intros Hnil. apply isEmpty_true in Hnil. congruence.
    + rewrite existsb_map_to_list_false in H2.
      split; [|done]. intros _. split.
      * intros format [v Hv] Hp.
        specialize (H1 format v Hv). simpl in H1. rewrite Hp in H1. simpl in H1.
        apply negb_false_iff, contains_true in H1. done.
      * intros format v Hv Hp Hne.
        specialize (H2 format v Hv). simpl in H2. rewrite Hp in H2. simpl in H2.
        assert (value data format = v) as Hval by (unfold value; by rewrite Hv).
        rewrite Hval in H2.
        destruct (isEmpty (toByteArray v)) eqn:He.
        { apply isEmpty_true in He. done. }
        simpl in H2. apply bool_decide_eq_false in H2.
        destruct (decide (value lastData format = v)) as [|Hd]; [done|].
        exfalso. apply H2. congruence.
Qed.

(** Two pairs of snapshots that agree outside the metadata formats get the
    same verdict. *)
Lemma hasSameData_metadata (data lastData data' lastData' : gmap string QVariant) :
  (∀ format, startsWith format COPYQ_MIME_PREFIX = false →
             data' !! format = data !! format) →
  (∀ format, startsWith format COPYQ_MIME_PREFIX = false →
             lastData' !! format = lastData !! format) →
  hasSameData data lastData = true → hasSameData data' lastData' = true.
Proof.
  intros Hd Hl. rewrite !hasSameData_true. intros [Hkeys Hvals]. split.
  - intros format Hsome Hp. rewrite Hd by done. apply Hkeys; [|done].
    by rewrite <- Hl.
  - intros format v Hv Hp Hne. unfold value. rewrite Hl by done.
    apply Hvals; [|done..]. by rewrite <- Hd.
Qed.

Lemma realFormats_lookup (m : gmap string QVariant) (format : string) :
  startsWith format COPYQ_MIME_PREFIX = false →
  realFormats m !! format = m !! format.
Proof.
  intros Hp. unfold realFormats. apply option_eq. intros v.
  rewrite map_lookup_filter_Some. simpl. tauto.
Qed.

Lemma hasSameData_realFormats (data lastData : gmap string QVariant) :
  hasSameData (realFormats data) (realFormats lastData) = hasSameData data lastData.
Proof.
  destruct (hasSameData data lastData) eqn:H1.
  - revert H1. apply hasSameData_metadata; apply realFormats_lookup.
  - destruct (hasSameData (realFormats data) (realFormats lastData)) eqn:H2; [|done].
    rewrite <- H1. symmetry. revert H2.
    apply hasSameData_metadata; intros format Hp; symmetry;
      by apply realFormats_lookup.
Qed.

Section ChangeDetection.

Variable serializeData : gmap string QVariant → QByteArray.

Lemma subscript_lookup (m : gmap Mode (gmap string QVariant)) (mode : Mode) :
  default ∅ (subscript m mode !! mode) = default ∅ (m !! mode).
Proof.
  unfold subscript. destruct (m !! mode) eqn:Hl.
  - by rewrite Hl.
  - by rewrite lookup_insert_eq.
Qed.

Lemma subscript_id (m : gmap Mode (gmap string QVariant)) (mode : Mode) :
  is_Some (m !! mode) → subscript m mode = m.
Proof. intros [x Hx]. unfold subscript. by rewrite Hx. Qed.

(** What [onClipboardChanged] does with a snapshot judged the same: it logs and
    returns. *)
Lemma onClipboardChanged_same (p : Platform) (this : ClipboardMonitor) (mode : Mode) :
  hasSameData (clipboardData p mode (m_formats this))
              (default ∅ (m_lastData this !! mode)) = true →
  onClipboardChanged serializeData p this mode
  = (set_m_lastData this (subscript (m_lastData this) mode),
     [COPYQ_LOG (IgnoringUnchanged
                   (if decide (mode = Clipboard) then "clipboard" else "selection"))]).
Proof.
  intros Hsame. unfold onClipboardChanged. simpl.
  by rewrite subscript_lookup, Hsame.
Qed.

(** A message goes out exactly when the snapshot is not judged the same. *)
Lemma onClipboardChanged_sent (p : Platform) (this : ClipboardMonitor) (mode : Mode) :
  sentMessages (onClipboardChanged serializeData p this mode).2 = []
  ↔ hasSameData (clipboardData p mode (m_formats this))
                (default ∅ (m_lastData this !! mode)) = true.
Proof.
  destruct (hasSameData (clipboardData p mode (m_formats this))
                        (default ∅ (m_lastData this !! mode))) eqn:Hsame.
  - rewrite onClipboardChanged_same by done. done.
  - unfold onClipboardChanged. simpl. rewrite subscript_lookup, Hsame. simpl.
    split; discriminate.
Qed.

(** C1: a snapshot is judged the same as the stored one, and the outward
    message suppressed, exactly when (1) every non-metadata format of
    [lastData] is a key of [data] and (2) every non-metadata format of [data]
    with a non-empty value has that same value in [lastData]; the metadata
    formats of either side do not affect the verdict. *)
Theorem C1_hasSameData_iff (data lastData : gmap string QVariant) :
  (hasSameData data lastData = true ↔
     (∀ format, is_Some (lastData !! format) →
                startsWith format COPYQ_MIME_PREFIX = false →
                is_Some (data !! format))
     ∧ (∀ format v, data !! format = Some v →
                    startsWith format COPYQ_MIME_PREFIX = false →
                    toByteArray v ≠ [] →
                    value lastData format = v))
  ∧ hasSameData (realFormats data) (realFormats lastData) = hasSameData data lastData
  ∧ (∀ p this mode,
       sentMessages (onClipboardChanged serializeData p this mode).2 = []
       ↔ hasSameData (clipboardData p mode (m_formats this))
                     (default ∅ (m_lastData this !! mode)) = true).
Proof.
  split; [apply hasSameData_true|].
  split; [apply hasSameData_realFormats|].
  apply onClipboardChanged_sent.
Qed.

Lemma hasSameData_refl (data : gmap string QVariant) : hasSameData data data = true.
Proof.
  apply hasSameData_true. split; [done|].
  intros format v Hv _ _. unfold value. by rewrite Hv.
Qed.

Lemma mimeClipboardMode_metadata : startsWith mimeClipboardMode COPYQ_MIME_PREFIX = true.
Proof. reflexivity. Qed.

Lemma mimeWindowTitle_metadata : startsWith mimeWindowTitle COPYQ_MIME_PREFIX = true.
Proof. reflexivity. Qed.

(** What [onClipboardChanged] does with a snapshot that is not judged the
    same: the stored and sent snapshot is [data] but for the two tags. *)
Lemma onClipboardChanged_changed (p : Platform) (this : ClipboardMonitor) (mode : Mode) :
  hasSameData (clipboardData p mode (m_formats this))
              (default ∅ (m_lastData this !! mode)) = false →
  ∃ stored,
    onClipboardChanged serializeData p this mode
    = (set_m_lastData this (<[mode := stored]> (subscript (m_lastData this) mode)),
       [COPYQ_LOG (HasChanged (if decide (mode = Clipboard) then "Clipboard" else "Selection"));
        SendMessage (serializeData stored) MonitorClipboardChanged])
    ∧ ∀ format, format ≠ mimeClipboardMode → format ≠ mimeWindowTitle →
                stored !! format = clipboardData p mode (m_formats this) !! format.
Proof.
  intros Hsame. unfold onClipboardChanged. simpl.
  rewrite subscript_lookup, Hsame.
  eexists. split; [reflexivity|].
  intros format Hm Hw.
  repeat match goal with
         | |- context [if ?c then _ else _] => destruct c
         | |- context [match ?c with Some _ => _ | None => _ end !! _] => destruct c
         end;
    rewrite ?lookup_insert_ne by done; done.
Qed.

(** C2: once a snapshot [data] has been accepted for a mode and stored with its
    tags, a second change event that delivers the same [data] for that mode is
    judged a duplicate: nothing is sent and the monitor is left as it was. *)
Theorem C2_dedup_idempotent (p p' : Platform) (this : ClipboardMonitor) (mode : Mode) :
  let data := clipboardData p mode (m_formats this) in
  let this' := (onClipboardChanged serializeData p this mode).1 in
  hasSameData data (default ∅ (m_lastData this !! mode)) = false →
  clipboardData p' mode (m_formats this') = data →
  ∃ stored,
    m_lastData this' !! mode = Some stored
    ∧ (∀ format, format ≠ mimeClipboardMode → format ≠ mimeWindowTitle →
                 stored !! format = data !! format)
    ∧ sentMessages (onClipboardChanged serializeData p this mode).2
      = [(serializeData stored, MonitorClipboardChanged)]
    ∧ hasSameData data stored = true
    ∧ (onClipboardChanged serializeData p' this' mode).1 = this'
    ∧ sentMessages (onClipboardChanged serializeData p' this' mode).2 = [].
Proof.
  intros data this' Hnew Hdata'.
  destruct (onClipboardChanged_changed p this mode Hnew) as (stored & Hrun & Hagree).
  fold data in Hagree.
  assert (m_lastData this' !! mode = Some stored) as Hstored.
  { unfold this'. rewrite Hrun. simpl. apply lookup_insert_eq. }
  assert (hasSameData data stored = true) as Hsame.
  { apply (hasSameData_metadata data data); [done| |apply hasSameData_refl].
    intros format Hp. apply Hagree; intros ->.
    - by rewrite mimeClipboardMode_metadata in Hp.
    - by rewrite mimeWindowTitle_metadata in Hp. }
  assert (onClipboardChanged serializeData p' this' mode
          = (this', [COPYQ_LOG (IgnoringUnchanged
                       (if decide (mode = Clipboard) then "clipboard" else "selection"))]))
    as Hrun'.
  { rewrite onClipboardChanged_same.
    - rewrite subscript_id by (by rewrite Hstored). by destruct this'.
    - by rewrite Hdata', Hstored. }
  exists stored. repeat split; try done.
  - rewrite Hrun. done.
  - by rewrite Hrun'.
  - by rewrite Hrun'.
Qed.

(** C4: a snapshot that keeps every key of the stored one and differs from it
    only by empty byte arrays in place of the values of non-metadata formats is
    judged a duplicate, and nothing is sent. *)
Theorem C4_cleared_content_is_duplicate (p : Platform) (this : ClipboardMonitor)
    (mode : Mode) :
  let data := clipboardData p mode (m_formats this) in
  let lastData := default ∅ (m_lastData this !! mode) in
  (∀ format,
     data !! format = lastData !! format
     ∨ (startsWith format COPYQ_MIME_PREFIX = false
        ∧ is_Some (lastData !! format)
        ∧ data !! format = Some (VByteArray []))) →
  hasSameData data lastData = true
  ∧ sentMessages (onClipboardChanged serializeData p this mode).2 = [].
Proof.
  intros data lastData Hcleared.
  assert (hasSameData data lastData = true) as Hsame.
  { apply hasSameData_true. split.
    - intros format Hl _. destruct (Hcleared format) as [->|(_ & _ & ->)]; eauto.
    - intros format v Hv _ Hne.
      destruct (Hcleared format) as [Heq|(_ & _ & Heq)].
      + unfold value. by rewrite <- Heq, Hv.
      + rewrite Heq in Hv. injection Hv as <-. done. }
  split; [done|]. by apply onClipboardChanged_sent.
Qed.

(** C9: while nothing is stored for a mode, a snapshot that holds only metadata
    formats and formats with empty values is judged a duplicate: nothing is
    sent and the stored snapshot stays empty. *)
Theorem C9_first_change_without_content (p : Platform) (this : ClipboardMonitor)
    (mode : Mode) :
  let data := clipboardData p mode (m_formats this) in
  default ∅ (m_lastData this !! mode) = ∅ →
  (∀ format v, data !! format = Some v →
               startsWith format COPYQ_MIME_PREFIX = true ∨ toByteArray v = []) →
  hasSameData data ∅ = true
  ∧ sentMessages (onClipboardChanged serializeData p this mode).2 = []
  ∧ default ∅ (m_lastData (onClipboardChanged serializeData p this mode).1 !! mode) = ∅.
Proof.
  intros data Hempty Honly.
  assert (hasSameData data ∅ = true) as Hsame.
  { apply hasSameData_true. split.
    - intros format [v Hv]. by rewrite lookup_empty in Hv.
    - intros format v Hv Hp Hne.
      destruct (Honly format v Hv) as [Hp'|Hnil]; [congruence|done]. }
  split; [done|].
  rewrite onClipboardChanged_same by (by rewrite Hempty).
  split; [done|]. simpl. by rewrite subscript_lookup.
Qed.

End ChangeDetection.

(** ** Dispatch and the deferred write *)

Section Dispatch.

Variable hasLogLevel : LogLevel → bool.
Variable serializeData : gmap string QVariant → QByteArray.
Variable deserializeData : QByteArray → gmap string QVariant.
Variable readSettings : QByteArray → option (gmap string QVariant).

Abbreviation received := (onMessageReceived hasLogLevel deserializeData readSettings).
Abbreviation changed := (onClipboardChanged serializeData).
Abbreviation emit := (emitChanged serializeData).
Abbreviation handled := (handle hasLogLevel serializeData deserializeData readSettings).
Abbreviation ran := (run hasLogLevel serializeData deserializeData readSettings).

Lemma run_app (this : ClipboardMonitor) (evs1 evs2 : list Event) :
  ran this (evs1 ++ evs2)
  = ((ran (ran this evs1).1 evs2).1, (ran this evs1).2 ++ (ran (ran this evs1).1 evs2).2).
Proof.
  revert this. induction evs1 as [|ev evs1 IH]; intros this; simpl.
  - by destruct (ran this evs2).
  - destruct (handled this ev) as [this1 e1]. rewrite IH.
    destruct (ran this1 evs1) as [this2 e2]. simpl.
    by rewrite app_assoc.
Qed.

Lemma setDataCalls_app (mode : Mode) (t1 t2 : list Effect) :
  setDataCalls mode (t1 ++ t2) = setDataCalls mode t1 ++ setDataCalls mode t2.
Proof. unfold setDataCalls. apply flat_map_app. Qed.

(** *** What each handler leaves alone *)

Lemma changed_frame (p : Platform) (this : ClipboardMonitor) (mode : Mode) :
  m_newData (changed p this mode).1 = m_newData this
  ∧ m_timerSetNewClipboard (changed p this mode).1 = m_timerSetNewClipboard this
  ∧ changedConnections (changed p this mode).1 = changedConnections this
  ∧ m_formats (changed p this mode).1 = m_formats this
  ∧ ∀ mode', setDataCalls mode' (changed p this mode).2 = [].
Proof.
  unfold onClipboardChanged.
  destruct (hasSameData _ _); simpl; done.
Qed.

Lemma emit_frame (n : nat) (p : Platform) (this : ClipboardMonitor) (mode : Mode) :
  m_newData (emit n p this mode).1 = m_newData this
  ∧ m_timerSetNewClipboard (emit n p this mode).1 = m_timerSetNewClipboard this
  ∧ changedConnections (emit n p this mode).1 = changedConnections this
  ∧ m_formats (emit n p this mode).1 = m_formats this
  ∧ ∀ mode', setDataCalls mode' (emit n p this mode).2 = [].
Proof.
  revert this. induction n as [|n IH]; intros this; simpl; [done|].
  destruct (changed_frame p this mode) as (H1 & H2 & H3 & H4 & H5).
  destruct (changed p this mode) as [this1 e1]. simpl in *.
  destruct (IH this1) as (I1 & I2 & I3 & I4 & I5).
  destruct (emit n p this1 mode) as [this2 e2]. simpl in *.
  repeat split; try congruence.
  intros mode'. by rewrite setDataCalls_app, H5, I5.
Qed.

Lemma received_no_setData (this : ClipboardMonitor) (message : QByteArray)
    (messageCode : Z) (mode : Mode) :
  setDataCalls mode (received this message messageCode).2 = [].
Proof.
  unfold onMessageReceived.
  repeat case_decide; simpl; try done.
  rewrite setDataCalls_app. simpl. rewrite app_nil_r.
  destruct (hasLogLevel LogDebug); [|done]. simpl.
  induction (map_to_list (default ∅ (readSettings message))); done.
Qed.

(** A change request puts the decoded snapshot in the pending set under its
    mode and starts the timer. *)
Lemma received_change (this : ClipboardMonitor) (message : QByteArray)
    (messageCode : Z) (mode : Mode) :
  (messageCode = MonitorChangeClipboard ∧ mode = Clipboard)
  ∨ (messageCode = MonitorChangeSelection ∧ mode = Selection) →
  (received this message messageCode).1
  = set_m_timerSetNewClipboard
      (set_m_newData this (<[mode := deserializeData message]> (m_newData this))) true.
Proof.
  intros [[-> ->]|[-> ->]]; reflexivity.
Qed.

(** Any other message leaves the pending set and the timer alone. *)
Lemma received_other (this : ClipboardMonitor) (message : QByteArray) (messageCode : Z) :
  messageCode ≠ MonitorChangeClipboard → messageCode ≠ MonitorChangeSelection →
  m_newData (received this message messageCode).1 = m_newData this
  ∧ m_timerSetNewClipboard (received this message messageCode).1
    = m_timerSetNewClipboard this.
Proof.
  intros H1 H2. unfold onMessageReceived.
  repeat case_decide; simpl; try done.
  by destruct (contains _ _).
Qed.

Lemma received_cases (messageCode : Z) :
  messageCode = MonitorChangeClipboard ∨ messageCode = MonitorChangeSelection
  ∨ (messageCode ≠ MonitorChangeClipboard ∧ messageCode ≠ MonitorChangeSelection).
Proof. unfold MonitorChangeClipboard, MonitorChangeSelection. lia. Qed.

(** *** The flush *)

Lemma setNewClipboardMode_result (this : ClipboardMonitor) (mode : Mode) :
  m_newData (setNewClipboardMode this mode).1 = delete mode (m_newData this)
  ∧ m_timerSetNewClipboard (setNewClipboardMode this mode).1 = m_timerSetNewClipboard this
  ∧ changedConnections (setNewClipboardMode this mode).1 = changedConnections this
  ∧ (setNewClipboardMode this mode).2
    = match m_newData this !! mode with
      | Some data => [SetData mode data]
      | None => []
      end.
Proof.
  unfold setNewClipboardMode.
  destruct (m_newData this !! mode) eqn:Hm; simpl; [done|].
  by rewrite delete_id.
Qed.

Lemma flush_result (this : ClipboardMonitor) :
  m_timerSetNewClipboard this = false →
  m_newData (setNewClipboard this).1
  = delete Selection (delete Clipboard (m_newData this))
  ∧ m_timerSetNewClipboard (setNewClipboard this).1 = false
  ∧ changedConnections (setNewClipboard this).1 = changedConnections this
  ∧ ∀ mode, setDataCalls mode (setNewClipboard this).2
            = match mode with
              | FindBuffer => []
              | _ => option_list (m_newData this !! mode)
              end.
Proof.
  intros Htimer. unfold setNewClipboard. rewrite Htimer.
  destruct (setNewClipboardMode_result this Clipboard) as (C1 & C2 & C3 & C4).
  destruct (setNewClipboardMode this Clipboard) as [this1 e1]. simpl in *.
  destruct (setNewClipboardMode_result this1 Selection) as (S1 & S2 & S3 & S4).
  destruct (setNewClipboardMode this1 Selection) as [this2 e2]. simpl in *.
  rewrite C1 in S1, S4. rewrite lookup_delete_ne in S4 by done.
  repeat split; try congruence.
  intros mode. rewrite setDataCalls_app, C4, S4.
  destruct mode, (m_newData this !! Clipboard), (m_newData this !! Selection); done.
Qed.

Lemma timeout_result (this : ClipboardMonitor) :
  m_newData (timeout this).1 !! FindBuffer = m_newData this !! FindBuffer
  ∧ changedConnections (timeout this).1 = changedConnections this
  ∧ (m_timerSetNewClipboard this = true →
     m_newData (timeout this).1 = delete Selection (delete Clipboard (m_newData this))
     ∧ m_timerSetNewClipboard (timeout this).1 = false
     ∧ ∀ mode, setDataCalls mode (timeout this).2
               = match mode with
                 | FindBuffer => []
                 | _ => option_list (m_newData this !! mode)
                 end)
  ∧ (m_timerSetNewClipboard this = false → timeout this = (this, [])).
Proof.
  unfold timeout. destruct (m_timerSetNewClipboard this) eqn:Htimer; [|done].
  destruct (flush_result (set_m_timerSetNewClipboard this false)) as (F1 & F2 & F3 & F4);
    [done|]. simpl in *.
  repeat split; try done.
  rewrite F1. by rewrite !lookup_delete_ne.
Qed.

(** *** The pending set along a run *)

Lemma pendingInvariant_initial : pendingInvariant initial.
Proof. split; done. Qed.

Lemma handle_findBuffer (this : ClipboardMonitor) (ev : Event) :
  m_newData (handled this ev).1 !! FindBuffer = m_newData this !! FindBuffer.
Proof.
  destruct ev as [message messageCode|p mode|]; simpl.
  - destruct (received_cases messageCode) as [->|[->|[H1 H2]]].
    + rewrite (received_change this message _ Clipboard) by auto. simpl.
      by rewrite lookup_insert_ne.
    + rewrite (received_change this message _ Selection) by auto. simpl.
      by rewrite lookup_insert_ne.
    + by destruct (received_other this message messageCode H1 H2) as [-> _].
  - by destruct (emit_frame (changedConnections this) p this mode) as [-> _].
  - apply timeout_result.
Qed.

Lemma handle_invariant (this : ClipboardMonitor) (ev : Event) :
  pendingInvariant this → pendingInvariant (handled this ev).1.
Proof.
  intros [Hfind Hidle]. split; [by rewrite handle_findBuffer|].
  destruct ev as [message messageCode|p mode|]; simpl.
  - destruct (received_cases messageCode) as [->|[->|[H1 H2]]].
    + rewrite (received_change this message _ Clipboard) by auto. done.
    + rewrite (received_change this message _ Selection) by auto. done.
    + destruct (received_other this message messageCode H1 H2) as [-> ->]. done.
  - destruct (emit_frame (changedConnections this) p this mode) as (-> & -> & _). done.
  - destruct (timeout_result this) as (_ & _ & Hactive & Hinactive).
    destruct (m_timerSetNewClipboard this) eqn:Htimer.
    + destruct Hactive as (-> & _); [done|]. intros _.
      apply map_eq. intros mode. rewrite lookup_empty.
      destruct mode.
      * by rewrite lookup_delete_ne, lookup_delete_eq.
      * by rewrite lookup_delete_eq.
      * by rewrite !lookup_delete_ne.
    + rewrite Hinactive by done. simpl. auto.
Qed.

Lemma run_invariant (evs : list Event) (this : ClipboardMonitor) :
  pendingInvariant this → pendingInvariant (ran this evs).1.
Proof.
  revert this. induction evs as [|ev evs IH]; intros this Hinv; simpl; [done|].
  pose proof (handle_invariant this ev Hinv) as Hinv1.
  destruct (handled this ev) as [this1 e1]. simpl in Hinv1.
  specialize (IH this1 Hinv1).
  by destruct (ran this1 evs).
Qed.

(** The timer's expiry applies the whole pending set and leaves it empty. *)
Lemma timeout_flushes (this : ClipboardMonitor) :
  pendingInvariant this →
  m_newData (timeout this).1 = ∅
  ∧ ∀ mode, setDataCalls mode (timeout this).2 = option_list (m_newData this !! mode).
Proof.
  intros Hinv.
  pose proof (handle_invariant this TimerExpired Hinv) as [_ Hidle]. simpl in Hidle.
  destruct Hinv as [Hfind Hempty].
  destruct (timeout_result this) as (_ & _ & Hactive & Hinactive).
  destruct (m_timerSetNewClipboard this) eqn:Htimer.
  - destruct Hactive as (_ & Hoff & Hcalls); [done|].
    split; [by apply Hidle|].
    intros mode. rewrite Hcalls. destruct mode; try done. by rewrite Hfind.
  - rewrite Hinactive by done. simpl. rewrite Hempty by done.
    split; [done|]. intros mode. by rewrite lookup_empty.
Qed.

(** C7: when the timer expires in a state the monitor can reach, [setData] is
    called once, with the pending snapshot, for each mode in the pending set
    and not at all for a mode outside it, and no entry is left pending. *)
Theorem C7_flush_applies_pending (evs : list Event) :
  let this := (ran initial evs).1 in
  (∀ mode data, m_newData this !! mode = Some data →
                setDataCalls mode (timeout this).2 = [data]
                ∧ m_newData (timeout this).1 !! mode = None)
  ∧ (∀ mode, m_newData this !! mode = None → setDataCalls mode (timeout this).2 = [])
  ∧ m_newData (timeout this).1 = ∅.
Proof.
  intros this.
  destruct (timeout_flushes this) as [Hempty Hcalls].
  { apply run_invariant, pendingInvariant_initial. }
  split; [|split; [|done]].
  - intros mode data Hpending. split.
    + by rewrite Hcalls, Hpending.
    + by rewrite Hempty.
  - intros mode Hnone. by rewrite Hcalls, Hnone.
Qed.

(** C10: the pending set never holds an entry for the find buffer, in the
    initial state and after every event, whatever the state before it; the
    flush looks at the clipboard and the selection and at nothing else. *)
Theorem C10_pending_modes :
  (∀ evs, m_newData (ran initial evs).1 !! FindBuffer = None)
  ∧ (∀ this ev, m_newData (handled this ev).1 !! FindBuffer = m_newData this !! FindBuffer)
  ∧ (∀ this,
       let flush := setNewClipboard (set_m_timerSetNewClipboard this false) in
       m_newData flush.1 = delete Selection (delete Clipboard (m_newData this))
       ∧ ∀ mode, setDataCalls mode flush.2
                 = match mode with
                   | FindBuffer => []
                   | _ => option_list (m_newData this !! mode)
                   end).
Proof.
  split; [|split].
  - intros evs. apply (run_invariant evs initial pendingInvariant_initial).
  - apply handle_findBuffer.
  - intros this flush.
    destruct (flush_result (set_m_timerSetNewClipboard this false)) as (F1 & _ & _ & F4);
      done.
Qed.

(** *** Coalescing *)

Lemma run_requests_no_setData (messageCode : Z) (mode : Mode) (payloads : list QByteArray)
    (this : ClipboardMonitor) :
  setDataCalls mode
    (ran this (map (λ message, MessageReceived message messageCode) payloads)).2 = [].
Proof.
  revert this. induction payloads as [|message payloads IH]; intros this; simpl; [done|].
  pose proof (received_no_setData this message messageCode mode) as Hnone.
  destruct (received this message messageCode) as [this1 e1]. simpl in Hnone.
  specialize (IH this1).
  destruct (ran this1 _) as [this2 e2]. simpl in *.
  by rewrite setDataCalls_app, Hnone, IH.
Qed.

(** C3: after any non-empty sequence of change requests for one mode, the
    timer's expiry calls [setData] for that mode exactly once, with the
    snapshot decoded from the last request; handling the requests calls it not
    at all. *)
Theorem C3_last_write_wins (this : ClipboardMonitor) (messageCode : Z) (mode : Mode)
    (payloads : list QByteArray) (last : QByteArray) :
  (messageCode = MonitorChangeClipboard ∧ mode = Clipboard)
  ∨ (messageCode = MonitorChangeSelection ∧ mode = Selection) →
  let requests :=
    map (λ message, MessageReceived message messageCode) (payloads ++ [last]) in
  setDataCalls mode (ran this requests).2 = []
  ∧ setDataCalls mode (timeout (ran this requests).1).2 = [deserializeData last]
  ∧ setDataCalls mode (ran this (requests ++ [TimerExpired])).2 = [deserializeData last].
Proof.
  intros Hmode requests.
  assert (setDataCalls mode (ran this requests).2 = []) as Hquiet
    by apply run_requests_no_setData.
  assert (setDataCalls mode (timeout (ran this requests).1).2 = [deserializeData last])
    as Hflush.
  { unfold requests. rewrite map_app, run_app. simpl.
    set (this1 := (ran this (map _ payloads)).1).
    rewrite (surjective_pairing (received this1 last messageCode)). simpl.
    rewrite (received_change this1 last messageCode mode Hmode).
    destruct (timeout_result
                (set_m_timerSetNewClipboard
                   (set_m_newData this1 (<[mode:=deserializeData last]> (m_newData this1)))
                   true)) as (_ & _ & Hactive & _).
    destruct Hactive as (_ & _ & Hcalls); [done|].
    rewrite Hcalls. simpl. rewrite lookup_insert_eq.
    by destruct Hmode as [[_ ->]|[_ ->]]. }
  repeat split; [done..|].
  rewrite run_app. simpl. rewrite setDataCalls_app, Hquiet. simpl.
  destruct (timeout (ran this requests).1) as [this2 e2]. simpl in *.
  by rewrite app_nil_r.
Qed.

(** *** Settings and the subscription *)

Lemma handle_connections (this : ClipboardMonitor) (ev : Event) :
  changedConnections (handled this ev).1
  = match ev with
    | MessageReceived _ messageCode =>
        if decide (messageCode = MonitorSettings)
        then connectUnique (changedConnections this)
        else changedConnections this
    | _ => changedConnections this
    end.
Proof.
  destruct ev as [message messageCode|p mode|]; simpl.
  - unfold onMessageReceived.
    repeat case_decide; simpl; try done; try (by subst).
    by destruct (contains _ _).
  - by destruct (emit_frame (changedConnections this) p this mode) as (_ & _ & -> & _).
  - apply timeout_result.
Qed.

Lemma run_connected (evs : list Event) (this : ClipboardMonitor) :
  changedConnections this = 1 → changedConnections (ran this evs).1 = 1.
Proof.
  revert this. induction evs as [|ev evs IH]; intros this Hone; simpl; [done|].
  pose proof (handle_connections this ev) as Hev.
  destruct (handled this ev) as [this1 e1]. simpl in Hev.
  specialize (IH this1).
  destruct (ran this1 evs) as [this2 e2]. simpl in *. apply IH.
  rewrite Hev, Hone. destruct ev; try done. by case_decide.
Qed.

Lemma run_settings (evs : list Event) (this : ClipboardMonitor) (message : QByteArray) :
  changedConnections this ≤ 1 →
  In (MessageReceived message MonitorSettings) evs →
  changedConnections (ran this evs).1 = 1.
Proof.
  revert this. induction evs as [|ev evs IH]; intros this Hle Hin; simpl; [done|].
  pose proof (handle_connections this ev) as Hev.
  pose proof (run_connected evs (handled this ev).1) as Hrest.
  destruct (handled this ev) as [this1 e1]. simpl in Hev, Hrest.
  specialize (IH this1).
  destruct (ran this1 evs) as [this2 e2]. simpl in *.
  destruct Hin as [->|Hin].
  - apply Hrest. rewrite Hev. simpl.
    destruct (changedConnections this) as [|[|n]]; simpl; [done..|lia].
  - apply IH; [|done]. rewrite Hev.
    destruct ev; try done. case_decide; [|done].
    destruct (changedConnections this) as [|[|n]]; simpl; lia.
Qed.

(** C6: once a settings message has been handled, whatever its payload and
    whatever else has been handled, the clipboard's change signal is connected
    to the monitor exactly once, and stays so whatever is handled later. *)
Theorem C6_single_subscription (evs more : list Event) (message : QByteArray) :
  In (MessageReceived message MonitorSettings) evs →
  changedConnections (ran initial evs).1 = 1
  ∧ changedConnections (ran initial (evs ++ more)).1 = 1.
Proof.
  intros Hin. split.
  - apply (run_settings evs initial message); [simpl; lia|done].
  - apply (run_settings (evs ++ more) initial message); [simpl; lia|].
    apply in_or_app. by left.
Qed.

(** C5, as the code has it: a settings payload that does not decode is not told
    apart from an empty map of settings.  The accepted formats, the stored and
    the pending snapshots and the timer are as before, the process does not
    exit and nothing is reported as an error; but the change signal is
    connected if it was not, the empty settings are handed to the clipboard,
    and only the usual debug lines are logged. *)
Theorem C5_malformed_settings (this : ClipboardMonitor) (message : QByteArray) :
  readSettings message = None →
  received this message MonitorSettings
  = (set_changedConnections this (connectUnique (changedConnections this)),
     (if hasLogLevel LogDebug then [COPYQ_LOG LoadingConfiguration] else [])
       ++ [LoadSettings ∅; COPYQ_LOG Configured])
  ∧ m_formats (received this message MonitorSettings).1 = m_formats this
  ∧ (0 < changedConnections this →
     (received this message MonitorSettings).1 = this)
  ∧ (changedConnections this = 0 →
     changedConnections (received this message MonitorSettings).1 = 1).
Proof.
  intros Hread.
  assert (received this message MonitorSettings
          = (set_changedConnections this (connectUnique (changedConnections this)),
             (if hasLogLevel LogDebug then [COPYQ_LOG LoadingConfiguration] else [])
               ++ [LoadSettings ∅; COPYQ_LOG Configured])) as Hrun.
  { unfold onMessageReceived. simpl. rewrite Hread. simpl.
    rewrite map_to_list_empty. done. }
  rewrite Hrun. simpl. repeat split.
  - intros Hpos. destruct this as [f l n t c]. simpl in *.
    destruct c; [lia|done].
  - by intros ->.
Qed.

End Dispatch.

(** ** The framed transport *)

Section Framing.

Import Transport.

Lemma valueOf_byteOf (n : Z) : valueOf (byteOf n) = (n mod 256)%Z.
Proof.
  unfold valueOf, byteOf.
  assert (0 ≤ n mod 256 < 256)%Z as Hr by (apply Z.mod_pos_bound; lia).
  destruct (Byte.of_N (Z.to_N (n mod 256))) as [b|] eqn:Hb; simpl.
  - apply Byte.to_of_N in Hb. rewrite Hb. lia.
  - apply Byte.of_N_None_iff in Hb. lia.
Qed.

Lemma decode32_encode32 (n : Z) (rest : QByteArray) :
  (0 ≤ n < 2 ^ 32)%Z →
  ∃ b3 b2 b1 b0, encode32 n ++ rest = b3 :: b2 :: b1 :: b0 :: rest
                 ∧ decode32 b3 b2 b1 b0 = n.
Proof.
  intros Hn. unfold encode32. do 4 eexists. split; [reflexivity|].
  unfold decode32. rewrite !valueOf_byteOf.
  change (2 ^ 24)%Z with 16777216%Z. change (2 ^ 16)%Z with 65536%Z.
  change (2 ^ 8)%Z with 256%Z. change (2 ^ 32)%Z with 4294967296%Z in Hn.
  Z.div_mod_to_equations. lia.
Qed.

Lemma toSigned_toUnsigned (c : Z) :
  (- 2 ^ 31 ≤ c < 2 ^ 31)%Z → toSigned (toUnsigned c) = c.
Proof.
  intros Hc. unfold toSigned, toUnsigned.
  change (2 ^ 31)%Z with 2147483648%Z in *. change (2 ^ 32)%Z with 4294967296%Z.
  destruct (Z.ltb_spec (c mod 4294967296) 2147483648);
    Z.div_mod_to_equations; lia.
Qed.

(** *** Termination of the reassembly loop *)

Lemma advance_measure (this this' : ClientSocket) (out : list Message) :
  advance this = Some (this', out) → measure this' < measure this.
Proof.
  unfold advance, measure. destruct this as [closed has len buf]. simpl.
  destruct has.
  - case_decide as Hlen; [|done].
    destruct (take (Z.to_nat len) buf) as [|c3 [|c2 [|c1 [|c0 body]]]] eqn:Htake;
      intros [= <- <-]; simpl; try lia.
    rewrite length_drop.
    assert (length (take (Z.to_nat len) buf) = Z.to_nat len) as Hn
      by (rewrite length_take; lia).
    rewrite Htake in Hn. simpl in Hn. lia.
  - destruct buf as [|b3 [|b2 [|b1 [|b0 rest]]]]; try done.
    intros [= <- <-]. simpl. lia.
Qed.

Lemma drain_fuel (fuel fuel' : nat) (this : ClientSocket) :
  measure this ≤ fuel → measure this ≤ fuel' → drain fuel this = drain fuel' this.
Proof.
  revert fuel' this. induction fuel as [|fuel IH]; intros fuel' this H1 H2.
  - destruct fuel' as [|fuel']; [done|]. simpl.
    destruct (advance this) as [[this' out]|] eqn:Hadv; [|done].
    apply advance_measure in Hadv. lia.
  - destruct fuel' as [|fuel']; simpl.
    + destruct (advance this) as [[this' out]|] eqn:Hadv; [|done].
      apply advance_measure in Hadv. lia.
    + destruct (advance this) as [[this' out]|] eqn:Hadv; [|done].
      apply advance_measure in Hadv.
      rewrite (IH fuel' this') by lia. done.
Qed.

Lemma settle_unfold (this : ClientSocket) :
  settle this
  = match advance this with
    | None => (this, [])
    | Some (this', out) => ((settle this').1, out ++ (settle this').2)
    end.
Proof.
  unfold settle at 1. simpl.
  destruct (advance this) as [[this' out]|] eqn:Hadv; [|done].
  apply advance_measure in Hadv.
  rewrite (drain_fuel _ (S (length (m_message this'))) this').
  - fold (settle this'). by destruct (settle this').
  - unfold measure in *. destruct (m_hasMessageLength this); lia.
  - unfold measure. destruct (m_hasMessageLength this'); lia.
Qed.

(** The loop stops only when no step applies. *)
Lemma settle_stuck (this : ClientSocket) : advance (settle this).1 = None.
Proof.
  remember (measure this) as n eqn:Hn. revert this Hn.
  induction n as [n IH] using lt_wf_ind. intros this ->.
  rewrite settle_unfold.
  destruct (advance this) as [[this' out]|] eqn:Hadv; simpl; [|done].
  apply (IH (measure this')); [|done]. by apply advance_measure in Hadv.
Qed.

(** *** Arrival in pieces *)

Lemma advance_failed (this : ClientSocket) : advance (failed this) = None.
Proof. done. Qed.

(** A step that applies to a buffer applies, with the same outcome, to the
    buffer with more bytes behind it. *)
Lemma advance_append (this this' : ClientSocket) (out : list Message) (chunk : QByteArray) :
  m_closed this = false →
  advance this = Some (this', out) →
  (m_closed this' = true ∧ this' = failed this
   ∧ advance (append this chunk) = Some (this', out))
  ∨ (m_closed this' = false
     ∧ advance (append this chunk) = Some (append this' chunk, out)).
Proof.
  unfold advance, append. destruct this as [closed has len buf]. simpl.
  intros ->. destruct has.
  - case_decide as Hlen; [|done].
    rewrite decide_True by (rewrite length_app; lia).
    rewrite take_app_le, drop_app_le by lia.
    destruct (take (Z.to_nat len) buf) as [|c3 [|c2 [|c1 [|c0 body]]]];
      intros [= <- <-]; simpl; auto.
  - destruct buf as [|b3 [|b2 [|b1 [|b0 rest]]]]; try done.
    intros [= <- <-]. simpl. auto.
Qed.

Lemma settle_append (this : ClientSocket) (chunk : QByteArray) :
  m_closed this = false →
  settle (append this chunk)
  = if m_closed (settle this).1 then settle this
    else ((settle (append (settle this).1 chunk)).1,
          (settle this).2 ++ (settle (append (settle this).1 chunk)).2).
Proof.
  remember (measure this) as n eqn:Hn. revert this Hn.
  induction n as [n IH] using lt_wf_ind. intros this -> Hopen.
  rewrite (settle_unfold this).
  destruct (advance this) as [[this' out]|] eqn:Hadv; simpl.
  - destruct (advance_append this this' out chunk Hopen Hadv)
      as [(Hclosed & -> & Hadv')|(Hopen' & Hadv')].
    + rewrite (settle_unfold (append this chunk)), Hadv'.
      rewrite (settle_unfold (failed this)), advance_failed. simpl. done.
    + rewrite (settle_unfold (append this chunk)), Hadv'.
      rewrite (IH (measure this')); [|by apply advance_measure in Hadv|done..].
      destruct (m_closed (settle this').1); simpl; [done|].
      by rewrite app_assoc.
  - rewrite Hopen. by destruct (settle (append this chunk)).
Qed.

Lemma receive_closed (chunks : list QByteArray) (this : ClientSocket) :
  m_closed this = true → receive this chunks = (this, []).
Proof.
  intros Hclosed. induction chunks as [|chunk chunks IH]; simpl; [done|].
  unfold onReadyRead. rewrite Hclosed, IH. done.
Qed.

Lemma append_nil (this : ClientSocket) : append this [] = this.
Proof. destruct this. unfold append. simpl. by rewrite app_nil_r. Qed.

Lemma append_append (this : ClientSocket) (c1 c2 : QByteArray) :
  append (append this c1) c2 = append this (c1 ++ c2).
Proof. unfold append. simpl. by rewrite app_assoc. Qed.

(** However the bytes are cut into chunks, the messages emitted are those
    emitted when they arrive at once. *)
Lemma receive_concat (chunks : list QByteArray) (this : ClientSocket) :
  m_closed this = false → advance this = None →
  receive this chunks = settle (append this (concat chunks)).
Proof.
  revert this. induction chunks as [|chunk chunks IH]; intros this Hopen Hstuck; simpl.
  - by rewrite append_nil, settle_unfold, Hstuck.
  - unfold onReadyRead. rewrite Hopen.
    rewrite <- append_append, (settle_append (append this chunk)) by done.
    destruct (m_closed (settle (append this chunk)).1) eqn:Hc.
    + rewrite (surjective_pairing (settle (append this chunk))).
      rewrite receive_closed by done. simpl. by rewrite app_nil_r.
    + rewrite (surjective_pairing (settle (append this chunk))).
      rewrite IH by (done || apply settle_stuck). simpl.
      by destruct (settle (append _ (concat chunks))).
Qed.

(** *** One frame *)

Lemma length_encode32 (n : Z) : length (encode32 n) = 4.
Proof. done. Qed.

Lemma bodyLength (m : Message) :
  wellFormed m →
  toUnsigned (4 + Z.of_nat (length (payload m))) = (4 + Z.of_nat (length (payload m)))%Z.
Proof.
  intros [_ Hlen]. unfold toUnsigned. apply Z.mod_small. lia.
Qed.

Lemma advance_read (len : Z) (b3 b2 b1 b0 : byte) (rest : QByteArray) :
  advance {| m_closed := false; m_hasMessageLength := false; m_messageLength := len;
             m_message := b3 :: b2 :: b1 :: b0 :: rest |}
  = Some ({| m_closed := false; m_hasMessageLength := true;
             m_messageLength := decode32 b3 b2 b1 b0; m_message := rest |}, []).
Proof. done. Qed.

Lemma sendMessage_bytes (m : Message) (rest : QByteArray) :
  wellFormed m →
  sendMessage m ++ rest
  = encode32 (4 + Z.of_nat (length (payload m)))
      ++ encode32 (toUnsigned (code m)) ++ payload m ++ rest.
Proof.
  intros Hm. unfold sendMessage. rewrite bodyLength by done.
  by rewrite <- !app_assoc.
Qed.

(** The length prefix of a frame is read, and nothing is emitted yet. *)
Lemma advance_prefix (m : Message) (len : Z) (rest : QByteArray) :
  wellFormed m →
  advance {| m_closed := false; m_hasMessageLength := false; m_messageLength := len;
             m_message := sendMessage m ++ rest |}
  = Some ({| m_closed := false; m_hasMessageLength := true;
             m_messageLength := 4 + Z.of_nat (length (payload m));
             m_message := encode32 (toUnsigned (code m)) ++ payload m ++ rest |},
          []).
Proof.
  intros Hm. rewrite sendMessage_bytes by done.
  destruct (decode32_encode32 (4 + Z.of_nat (length (payload m)))
              (encode32 (toUnsigned (code m)) ++ payload m ++ rest))
    as (b3 & b2 & b1 & b0 & Hbytes & Hval).
  { destruct Hm. lia. }
  by rewrite Hbytes, advance_read, Hval.
Qed.

Lemma advance_split (len : Z) (c3 c2 c1 c0 : byte) (body rest : QByteArray) :
  Z.to_nat len = 4 + length body →
  advance {| m_closed := false; m_hasMessageLength := true; m_messageLength := len;
             m_message := (c3 :: c2 :: c1 :: c0 :: body) ++ rest |}
  = Some ({| m_closed := false; m_hasMessageLength := false; m_messageLength := len;
             m_message := rest |},
          [{| code := toSigned (decode32 c3 c2 c1 c0); payload := body |}]).
Proof.
  intros Hlen. unfold advance.
  cbn [m_hasMessageLength m_message m_messageLength m_closed].
  replace (Z.to_nat len) with (length (c3 :: c2 :: c1 :: c0 :: body)) by (simpl; lia).
  rewrite decide_True by (rewrite length_app; lia).
  by rewrite take_app_length, drop_app_length.
Qed.

(** Once the whole body is there, the message is emitted as it was sent. *)
Lemma advance_body (m : Message) (rest : QByteArray) :
  wellFormed m →
  advance {| m_closed := false; m_hasMessageLength := true;
             m_messageLength := 4 + Z.of_nat (length (payload m));
             m_message := encode32 (toUnsigned (code m)) ++ payload m ++ rest |}
  = Some ({| m_closed := false; m_hasMessageLength := false;
             m_messageLength := 4 + Z.of_nat (length (payload m));
             m_message := rest |},
          [m]).
Proof.
  intros Hm.
  destruct (decode32_encode32 (toUnsigned (code m)) (payload m))
    as (c3 & c2 & c1 & c0 & Hbytes & Hval).
  { unfold toUnsigned. apply Z.mod_pos_bound. lia. }
  rewrite app_assoc, Hbytes, advance_split by lia.
  rewrite Hval, toSigned_toUnsigned by apply Hm.
  by destruct m.
Qed.

(** Before the whole frame is there, nothing is emitted. *)
Lemma settle_partial (m : Message) (len : Z) (p q : QByteArray) :
  wellFormed m → sendMessage m = p ++ q → q ≠ [] →
  (settle {| m_closed := false; m_hasMessageLength := false; m_messageLength := len;
             m_message := p |}).2 = [].
Proof.
  intros Hm Hsplit Hq.
  pose proof (advance_prefix m len [] Hm) as Hprefix.
  rewrite app_nil_r, Hsplit in Hprefix.
  assert (length p < 8 + length (payload m)) as Hshort.
  { assert (length (sendMessage m) = 8 + length (payload m)) as Hlen.
    { unfold sendMessage. rewrite !length_app, !length_encode32. lia. }
    rewrite Hsplit, length_app in Hlen. destruct q; [done|]. simpl in Hlen. lia. }
  rewrite settle_unfold.
  destruct p as [|b3 [|b2 [|b1 [|b0 p]]]]; try done.
  unfold advance at 1. simpl.
  unfold advance in Hprefix. simpl in Hprefix. injection Hprefix as Hval Hbuf.
  rewrite settle_unfold. unfold advance. simpl.
  rewrite Hval. rewrite decide_False; [done|]. simpl in Hshort. lia.
Qed.

(** The frames of a sequence of messages, end to end. *)
Lemma settle_frames (ms : list Message) (m : Message) (len : Z) (p q : QByteArray) :
  Forall wellFormed ms → wellFormed m → sendMessage m = p ++ q → q ≠ [] →
  (settle {| m_closed := false; m_hasMessageLength := false; m_messageLength := len;
             m_message := flat_map sendMessage ms ++ p |}).2 = ms.
Proof.
  intros Hms Hm Hsplit Hq. revert len.
  induction Hms as [|m0 ms Hm0 Hms IH]; intros len; cbn [flat_map].
  - by apply (settle_partial m len p q).
  - rewrite <- app_assoc.
    rewrite settle_unfold, advance_prefix by done. cbn [fst snd app].
    rewrite settle_unfold, advance_body by done. cbn [fst snd app].
    by rewrite IH.
Qed.

(** C8: the frames of well-formed messages, sent end to end and received in
    chunks cut anywhere, give back the messages, each once and in order; and
    while only a part of the frame of a further message has arrived, that
    message has not been emitted. *)
Theorem C8_framing_round_trip (ms : list Message) (chunks : list QByteArray) :
  Forall wellFormed ms →
  (concat chunks = flat_map sendMessage ms → (receive start chunks).2 = ms)
  ∧ (∀ m p q, wellFormed m → sendMessage m = p ++ q → q ≠ [] →
              concat chunks = flat_map sendMessage ms ++ p →
              (receive start chunks).2 = ms).
Proof.
  intros Hms.
  assert (∀ m p q, wellFormed m → sendMessage m = p ++ q → q ≠ [] →
                   concat chunks = flat_map sendMessage ms ++ p →
                   (receive start chunks).2 = ms) as Hpart.
  { intros m p q Hm Hsplit Hq Hbytes.
    rewrite receive_concat by done. unfold append. simpl. rewrite Hbytes.
    by apply (settle_frames ms m 0%Z p q). }
  split; [|done].
  intros Hbytes.
  apply (Hpart {| code := 0; payload := [] |} [] (sendMessage {| code := 0; payload := [] |})).
  - split; simpl; lia.
  - done.
  - done.
  - by rewrite app_nil_r.
Qed.

End Framing.

(** ** The properties at sample inputs *)

Example scenario_C :
  let first := holding {["text/plain" := bytes "hello"]} in
  let second :=
    holding (<["application/x-copyq-note" := bytes "n"]> {["text/plain" := bytes "hello"]}) in
  let this := (onClipboardChanged noBytes first initial Clipboard).1 in
  sentMessages (onClipboardChanged noBytes first initial Clipboard).2
  = [([], MonitorClipboardChanged)]
  ∧ sentMessages (onClipboardChanged noBytes second this Clipboard).2 = [].
Proof. vm_compute. done. Qed.

Lemma C2_witness :
  let p := holding {["text/plain" := bytes "hello"]} in
  let this' := (onClipboardChanged noBytes p initial Selection).1 in
  hasSameData (clipboardData p Selection (m_formats initial))
              (default ∅ (m_lastData initial !! Selection)) = false
  ∧ clipboardData p Selection (m_formats this') = clipboardData p Selection (m_formats initial)
  ∧ sentMessages (onClipboardChanged noBytes p this' Selection).2 = [].
Proof.
  intros p this'.
  assert (hasSameData (clipboardData p Selection (m_formats initial))
                      (default ∅ (m_lastData initial !! Selection)) = false) as Hnew
    by (vm_compute; reflexivity).
  split; [exact Hnew|]. split; [reflexivity|].
  destruct (C2_dedup_idempotent noBytes p p initial Selection Hnew eq_refl)
    as (stored & _ & _ & _ & _ & _ & Hquiet).
  exact Hquiet.
Defined.

Lemma C3_witness :
  (MonitorChangeClipboard = MonitorChangeClipboard ∧ Clipboard = Clipboard
   ∨ MonitorChangeClipboard = MonitorChangeSelection ∧ Clipboard = Selection)
  ∧ setDataCalls Clipboard
      (run quiet noBytes plainText undecodable initial
         (map (λ message, MessageReceived message MonitorChangeClipboard)
              ([[x41]] ++ [[x42]])
          ++ [TimerExpired])).2
    = [plainText [x42]].
Proof.
  assert (MonitorChangeClipboard = MonitorChangeClipboard ∧ Clipboard = Clipboard
          ∨ MonitorChangeClipboard = MonitorChangeSelection ∧ Clipboard = Selection)
    as Hmode by (left; split; reflexivity).
  split; [exact Hmode|].
  apply (C3_last_write_wins quiet noBytes plainText undecodable initial
           MonitorChangeClipboard Clipboard [[x41]] [x42] Hmode).
Defined.

Lemma C4_witness :
  let p := holding {["text/plain" := VByteArray []]} in
  let this := having {["text/plain" := bytes "hello"]} in
  hasSameData (clipboardData p Clipboard (m_formats this))
              (default ∅ (m_lastData this !! Clipboard)) = true
  ∧ sentMessages (onClipboardChanged noBytes p this Clipboard).2 = [].
Proof.
  intros p this.
  apply (C4_cleared_content_is_duplicate noBytes p this Clipboard).
  intros format. simpl.
  destruct (decide (format = "text/plain")) as [->|Hother].
  - right. repeat split; vm_compute; eauto.
  - left. rewrite lookup_singleton_eq. simpl.
    by rewrite !lookup_singleton_ne.
Defined.

Lemma C5_witness :
  undecodable [] = None
  ∧ onMessageReceived quiet plainText undecodable initial [] MonitorSettings
    = (set_changedConnections initial 1, [LoadSettings ∅; COPYQ_LOG Configured]).
Proof.
  split; [reflexivity|].
  apply (C5_malformed_settings quiet plainText undecodable initial [] eq_refl).
Defined.

(** C5 as it was stated fails: the first settings message of a monitor, with an
    empty payload that does not decode, connects the change signal, and what is
    logged does not tell it from a message that decodes. *)
Lemma C5_counterexample :
  undecodable [] = None
  ∧ changedConnections
      (onMessageReceived quiet plainText undecodable initial [] MonitorSettings).1
    ≠ changedConnections initial
  ∧ (onMessageReceived quiet plainText undecodable initial [] MonitorSettings).2
    = (onMessageReceived quiet plainText (λ _, Some ∅) initial [] MonitorSettings).2.
Proof. vm_compute. repeat split. discriminate. Qed.

Lemma C6_witness :
  In (MessageReceived [] MonitorSettings)
     [MessageReceived [] MonitorSettings; MessageReceived [] MonitorSettings]
  ∧ changedConnections
      (run quiet noBytes plainText undecodable initial
         [MessageReceived [] MonitorSettings; MessageReceived [] MonitorSettings]).1 = 1.
Proof.
  assert (In (MessageReceived [] MonitorSettings)
             [MessageReceived [] MonitorSettings; MessageReceived [] MonitorSettings])
    as Hin by (left; reflexivity).
  split; [exact Hin|].
  apply (C6_single_subscription quiet noBytes plainText undecodable _ [] [] Hin).
Defined.

Lemma C8_witness :
  let ms := [{| Transport.code := 1; Transport.payload := [x41] |};
             {| Transport.code := -1; Transport.payload := [] |}] in
  Forall Transport.wellFormed ms
  ∧ (Transport.receive Transport.start (byteByByte ms)).2 = ms.
Proof.
  intros ms.
  assert (Forall Transport.wellFormed ms) as Hms.
  { repeat constructor; simpl; lia. }
  split; [exact Hms|].
  apply (proj1 (C8_framing_round_trip ms (byteByByte ms) Hms)).
  vm_compute. reflexivity.
Defined.

Lemma C9_witness :
  let p := holding (<["application/x-copyq-owner" := bytes "1"]>
                      {["text/plain" := VByteArray []]}) in
  default ∅ (m_lastData initial !! Selection) = ∅
  ∧ sentMessages (onClipboardChanged noBytes p initial Selection).2 = []
  ∧ default ∅ (m_lastData (onClipboardChanged noBytes p initial Selection).1 !! Selection) = ∅.
Proof.
  intros p. split; [reflexivity|].
  apply (C9_first_change_without_content noBytes p initial Selection eq_refl).
  intros format v. simpl.
  destruct (decide (format = "application/x-copyq-owner")) as [->|Howner].
  - intros _. left. reflexivity.
  - rewrite lookup_insert_ne by done.
    destruct (decide (format = "text/plain")) as [->|Hplain].
    + rewrite lookup_singleton_eq. intros [= <-]. right. reflexivity.
    + by rewrite lookup_singleton_ne.
Defined.

(** * Further properties of the monitor *)

Section Handlers.

Variable hasLogLevel : LogLevel → bool.
Variable serializeData : gmap string QVariant → QByteArray.
Variable deserializeData : QByteArray → gmap string QVariant.
Variable readSettings : QByteArray → option (gmap string QVariant).

Abbreviation received := (onMessageReceived hasLogLevel deserializeData readSettings).
Abbreviation changed := (onClipboardChanged serializeData).
Abbreviation emit := (emitChanged serializeData).
Abbreviation handled := (handle hasLogLevel serializeData deserializeData readSettings).
Abbreviation ran := (run hasLogLevel serializeData deserializeData readSettings).

(** A property of states and a property of traces that every event of a kind
    keeps are kept by every run of such events. *)
Lemma run_keeps (I : ClipboardMonitor → Prop) (T : list Effect → Prop)
    (allowed : Event → Prop) :
  T [] →
  (∀ t1 t2, T t1 → T t2 → T (t1 ++ t2)) →
  (∀ this ev, I this → allowed ev → I (handled this ev).1 ∧ T (handled this ev).2) →
  ∀ evs this, I this → Forall allowed evs → I (ran this evs).1 ∧ T (ran this evs).2.
Proof.
  intros Hnil Happ Hstep evs.
  induction evs as [|ev evs IH]; intros this HI Hall; simpl; [done|].
  apply Forall_cons in Hall as [Hev Hall].
  destruct (Hstep this ev HI Hev) as [HI1 HT1].
  destruct (handled this ev) as [this1 e1]. simpl in *.
  destruct (IH this1 HI1 Hall) as [HI2 HT2].
  destruct (ran this1 evs) as [this2 e2]. simpl in *. auto.
Qed.

Lemma sentMessages_app (t1 t2 : list Effect) :
  sentMessages (t1 ++ t2) = sentMessages t1 ++ sentMessages t2.
Proof. unfold sentMessages. apply flat_map_app. Qed.

Lemma received_sent (this : ClipboardMonitor) (message : QByteArray) (messageCode : Z) :
  sentMessages (received this message messageCode).2
  = if decide (messageCode = MonitorPing) then [([], MonitorPong)] else [].
Proof.
  unfold onMessageReceived.
  repeat case_decide; simpl; try done.
  rewrite sentMessages_app. simpl. rewrite app_nil_r.
  destruct (hasLogLevel LogDebug); [|done]. simpl.
  induction (map_to_list (default ∅ (readSettings message))); done.
Qed.

Lemma changed_sent (p : Platform) (this : ClipboardMonitor) (mode : Mode) :
  Forall (λ mc, mc.2 = MonitorClipboardChanged) (sentMessages (changed p this mode).2).
Proof.
  unfold onClipboardChanged. destruct (hasSameData _ _); simpl; repeat constructor.
Qed.

Lemma emit_sent (n : nat) (p : Platform) (this : ClipboardMonitor) (mode : Mode) :
  Forall (λ mc, mc.2 = MonitorClipboardChanged) (sentMessages (emit n p this mode).2).
Proof.
  revert this. induction n as [|n IH]; intros this; simpl; [constructor|].
  pose proof (changed_sent p this mode) as H1.
  destruct (changed p this mode) as [this1 e1]. simpl in H1.
  specialize (IH this1).
  destruct (emit n p this1 mode) as [this2 e2]. simpl in *.
  rewrite sentMessages_app. by apply Forall_app.
Qed.

Lemma timeout_trace (this : ClipboardMonitor) :
  (timeout this).2
  = if m_timerSetNewClipboard this then
      option_list (SetData Clipboard <$> m_newData this !! Clipboard)
        ++ option_list (SetData Selection <$> m_newData this !! Selection)
    else [].
Proof.
  unfold timeout. destruct (m_timerSetNewClipboard this); [|done].
  unfold setNewClipboard. simpl.
  destruct (setNewClipboardMode_result (set_m_timerSetNewClipboard this false) Clipboard)
    as (C1 & _ & _ & C4).
  destruct (setNewClipboardMode (set_m_timerSetNewClipboard this false) Clipboard)
    as [this1 e1]. simpl in *.
  destruct (setNewClipboardMode_result this1 Selection) as (_ & _ & _ & S4).
  destruct (setNewClipboardMode this1 Selection) as [this2 e2]. simpl in *.
  rewrite C4, S4, C1, lookup_delete_ne by done.
  by destruct (m_newData this !! Clipboard), (m_newData this !! Selection).
Qed.

Lemma timeout_sent (this : ClipboardMonitor) : sentMessages (timeout this).2 = [].
Proof.
  rewrite timeout_trace.
  destruct (m_timerSetNewClipboard this); [|done].
  by destruct (m_newData this !! Clipboard), (m_newData this !! Selection).
Qed.

Lemma pongs_app (s1 s2 : list (QByteArray * Z)) : pongs (s1 ++ s2) = pongs s1 ++ pongs s2.
Proof. unfold pongs. apply filter_app. Qed.

Lemma pongs_none (sent : list (QByteArray * Z)) :
  Forall (λ mc, mc.2 = MonitorClipboardChanged) sent → pongs sent = [].
Proof.
  unfold pongs. induction 1 as [|mc sent Hmc Hsent IH]; [done|].
  rewrite filter_cons_False; [done|]. rewrite Hmc. done.
Qed.

(** X1: the monitor answers every ping with one empty pong, and sends nothing
    else but notifications of a changed clipboard. *)
Theorem X1_replies (this : ClipboardMonitor) (evs : list Event) :
  pongs (sentMessages (ran this evs).2)
  = repeat ([], MonitorPong) (length (filter (λ ev, isPing ev = true) evs))
  ∧ Forall (λ mc, mc = ([], MonitorPong) ∨ mc.2 = MonitorClipboardChanged)
           (sentMessages (ran this evs).2).
Proof.
  revert this. induction evs as [|ev evs IH]; intros this; simpl; [by split|].
  assert (pongs (sentMessages (handled this ev).2)
          = (if isPing ev then [([], MonitorPong)] else [])
          ∧ Forall (λ mc, mc = ([], MonitorPong) ∨ mc.2 = MonitorClipboardChanged)
                   (sentMessages (handled this ev).2)) as [Hp Hf].
  { destruct ev as [message messageCode|p mode|]; simpl.
    - rewrite received_sent. case_decide as Hping.
      + rewrite bool_decide_eq_true_2 by done. split; [done|]. repeat constructor.
      + rewrite bool_decide_eq_false_2 by done. split; [done|constructor].
    - pose proof (emit_sent (changedConnections this) p this mode) as Hsent.
      split; [by apply pongs_none|].
      eapply Forall_impl; [exact Hsent|]. simpl. auto.
    - rewrite timeout_sent. split; [done|constructor]. }
  destruct (handled this ev) as [this1 e1]. simpl in *.
  destruct (IH this1) as [IHp IHf].
  destruct (ran this1 evs) as [this2 e2]. simpl in *.
  rewrite sentMessages_app, pongs_app, Hp, IHp. split.
  - destruct (isPing ev) eqn:Hping.
    + rewrite filter_cons_True by done. done.
    + rewrite filter_cons_False by (by rewrite Hping). done.
  - by apply Forall_app.
Qed.

(** X2: handling a message or a change of the clipboard never writes the
    clipboard; of all events only the timer's expiry calls [setData]. *)
Theorem X2_setData_only_on_expiry (this : ClipboardMonitor) (evs : list Event)
    (mode : Mode) :
  Forall (λ ev, isTimerExpired ev = false) evs →
  setDataCalls mode (ran this evs).2 = [].
Proof.
  intros Hevs.
  apply (run_keeps (λ _, True) (λ t, setDataCalls mode t = [])
           (λ ev, isTimerExpired ev = false)); try done.
  - intros t1 t2 H1 H2. by rewrite setDataCalls_app, H1, H2.
  - intros this' ev _ Hev. split; [done|].
    destruct ev as [message messageCode|p mode'|]; simpl; [| |done].
    + apply received_no_setData.
    + apply emit_frame.
Qed.

Lemma received_no_exit (this : ClipboardMonitor) (message : QByteArray)
    (messageCode exitCode : Z) :
  ¬ In (Exit exitCode) (received this message messageCode).2.
Proof.
  unfold onMessageReceived.
  repeat case_decide; simpl; try (intros [?|?]; done).
  intros Hin. apply in_app_or in Hin as [Hin|Hin].
  - destruct (hasLogLevel LogDebug); [|done].
    destruct Hin as [?|Hin]; [done|].
    apply in_map_iff in Hin as (it & ? & _). done.
  - destruct Hin as [?|[?|?]]; done.
Qed.

Lemma emit_no_exit (n : nat) (p : Platform) (this : ClipboardMonitor) (mode : Mode)
    (exitCode : Z) :
  ¬ In (Exit exitCode) (emit n p this mode).2.
Proof.
  revert this. induction n as [|n IH]; intros this; simpl; [tauto|].
  assert (¬ In (Exit exitCode) (changed p this mode).2) as H1.
  { unfold onClipboardChanged. destruct (hasSameData _ _); simpl; intuition discriminate. }
  destruct (changed p this mode) as [this1 e1]. simpl in H1.
  specialize (IH this1).
  destruct (emit n p this1 mode) as [this2 e2]. simpl in *.
  intros Hin. apply in_app_or in Hin. tauto.
Qed.

(** X3: no message, change of the clipboard or expiry of the timer ends the
    process, whatever the message holds; the monitor exits with 0 when
    disconnected and with 1 when the connection fails. *)
Theorem X3_exit_only_on_connection_loss (this : ClipboardMonitor) (evs : list Event) :
  (∀ exitCode, ¬ In (Exit exitCode) (ran this evs).2)
  ∧ onDisconnected (ran this evs).1 = ((ran this evs).1, [Exit 0])
  ∧ onConnectionFailed (ran this evs).1 = ((ran this evs).1, [Exit 1]).
Proof.
  split; [|done].
  intros exitCode.
  apply (run_keeps (λ _, True) (λ t, ¬ In (Exit exitCode) t) (λ _, True)); try done.
  - tauto.
  - intros t1 t2 H1 H2 Hin. apply in_app_or in Hin. tauto.
  - intros this' ev _ _. split; [done|].
    destruct ev as [message messageCode|p mode|]; simpl.
    + apply received_no_exit.
    + apply emit_no_exit.
    + rewrite timeout_trace. destruct (m_timerSetNewClipboard this'); [|tauto].
      destruct (m_newData this' !! Clipboard), (m_newData this' !! Selection);
        simpl; intuition discriminate.
  - by apply Forall_forall.
Qed.

(** X4: a message whose code is none of ping, settings, change clipboard and
    change selection (so also a pong or a change notification sent back to the
    monitor) is reported to the logger as an error and changes nothing. *)
Theorem X4_unknown_code (this : ClipboardMonitor) (message : QByteArray)
    (messageCode : Z) :
  messageCode ≠ MonitorPing → messageCode ≠ MonitorSettings →
  messageCode ≠ MonitorChangeClipboard → messageCode ≠ MonitorChangeSelection →
  received this message messageCode
  = (this, [Log (UnknownMessageCode messageCode) LogError]).
Proof.
  intros H1 H2 H3 H4. unfold onMessageReceived.
  rewrite !decide_False by done.
  by rewrite !bool_decide_eq_false_2 by done.
Qed.

Lemma received_lastData (this : ClipboardMonitor) (message : QByteArray) (messageCode : Z) :
  m_lastData (received this message messageCode).1 = m_lastData this.
Proof.
  unfold onMessageReceived.
  repeat case_decide; simpl; try done.
  by destruct (contains _ _).
Qed.

Lemma timeout_frame (this : ClipboardMonitor) :
  m_lastData (timeout this).1 = m_lastData this
  ∧ m_formats (timeout this).1 = m_formats this.
Proof.
  unfold timeout. destruct (m_timerSetNewClipboard this); [|done].
  unfold setNewClipboard, setNewClipboardMode. simpl.
  destruct (m_newData this !! Clipboard); simpl;
    rewrite ?lookup_delete_ne by done;
    by destruct (m_newData this !! Selection).
Qed.

(** X5: the accepted formats are replaced by a settings message whose settings
    hold the key [formats], by the string list of its value; a settings message
    without that key, and every other event, leaves them as they are.  The
    settings are handed to the clipboard whole in both cases. *)
Theorem X5_formats (this : ClipboardMonitor) :
  (∀ message settings v,
     readSettings message = Some settings → settings !! "formats" = Some v →
     m_formats (received this message MonitorSettings).1 = toStringList v
     ∧ In (LoadSettings settings) (received this message MonitorSettings).2)
  ∧ (∀ message settings,
       readSettings message = Some settings → settings !! "formats" = None →
       m_formats (received this message MonitorSettings).1 = m_formats this
       ∧ In (LoadSettings settings) (received this message MonitorSettings).2)
  ∧ (∀ ev, isSettings ev = false → m_formats (handled this ev).1 = m_formats this).
Proof.
  split; [|split].
  - intros message settings v Hread Hv.
    unfold onMessageReceived. simpl. rewrite Hread. simpl.
    unfold contains, value. rewrite Hv. simpl. split; [done|].
    apply in_or_app. right. by left.
  - intros message settings Hread Hv.
    unfold onMessageReceived. simpl. rewrite Hread. simpl.
    unfold contains. rewrite Hv. simpl. split; [done|].
    apply in_or_app. right. by left.
  - intros [message messageCode|p mode|] Hev; simpl in *.
    + apply bool_decide_eq_false in Hev.
      unfold onMessageReceived. repeat case_decide; simpl; done.
    + apply emit_frame.
    + apply timeout_frame.
Qed.

(** *** The timer and the pending writes *)

Lemma handle_timer (this : ClipboardMonitor) (ev : Event) :
  (m_timerSetNewClipboard this = true → m_newData this ≠ ∅) →
  m_timerSetNewClipboard (handled this ev).1 = true → m_newData (handled this ev).1 ≠ ∅.
Proof.
  intros Hinv.
  destruct ev as [message messageCode|p mode|]; simpl.
  - destruct (received_cases messageCode) as [->|[->|[H1 H2]]].
    + rewrite (received_change _ _ _ this message _ Clipboard) by auto. simpl.
      intros _. apply insert_non_empty.
    + rewrite (received_change _ _ _ this message _ Selection) by auto. simpl.
      intros _. apply insert_non_empty.
    + by destruct (received_other hasLogLevel deserializeData readSettings
                     this message messageCode H1 H2) as [-> ->].
  - by destruct (emit_frame serializeData (changedConnections this) p this mode)
      as (-> & -> & _).
  - destruct (timeout_result this) as (_ & _ & Hactive & Hinactive).
    destruct (m_timerSetNewClipboard this) eqn:Htimer.
    + destruct Hactive as (_ & -> & _); done.
    + rewrite Hinactive by done. simpl. rewrite Htimer. done.
Qed.

(** X6: between two events the timer is active exactly when a write is
    pending. *)
Theorem X6_timer_iff_pending (evs : list Event) :
  m_timerSetNewClipboard (ran initial evs).1 = true ↔ m_newData (ran initial evs).1 ≠ ∅.
Proof.
  split.
  - apply (run_keeps (λ this, m_timerSetNewClipboard this = true → m_newData this ≠ ∅)
             (λ _, True) (λ _, True)); try done.
    + intros this ev Hinv _. split; [|done]. by apply handle_timer.
    + by apply Forall_forall.
  - intros Hpending.
    destruct (run_invariant hasLogLevel serializeData deserializeData readSettings
                evs initial pendingInvariant_initial) as [_ Hidle].
    destruct (m_timerSetNewClipboard (ran initial evs).1); [done|].
    by destruct Hpending; apply Hidle.
Qed.

Lemma lastRequest_cons (mode : Mode) (ev : Event) (evs : list Event) :
  lastRequest mode (ev :: evs)
  = match lastRequest mode evs with
    | Some payload => Some payload
    | None => requestFor mode ev
    end.
Proof.
  unfold lastRequest. simpl.
  destruct (requestFor mode ev); simpl; [|by destruct (last _)].
  apply last_cons.
Qed.

Lemma handle_pending (this : ClipboardMonitor) (ev : Event) (mode : Mode) :
  isTimerExpired ev = false →
  m_newData (handled this ev).1 !! mode
  = match requestFor mode ev with
    | Some payload => Some (deserializeData payload)
    | None => m_newData this !! mode
    end.
Proof.
  intros Hev. destruct ev as [message messageCode|p mode'|]; simpl; [| |done].
  - destruct (received_cases messageCode) as [->|[->|[H1 H2]]].
    + rewrite (received_change _ _ _ this message _ Clipboard) by auto. simpl.
      destruct mode; simpl; by rewrite ?lookup_insert_eq, ?lookup_insert_ne.
    + rewrite (received_change _ _ _ this message _ Selection) by auto. simpl.
      destruct mode; simpl; by rewrite ?lookup_insert_eq, ?lookup_insert_ne.
    + destruct (received_other hasLogLevel deserializeData readSettings
                  this message messageCode H1 H2) as [-> _].
      destruct mode; by rewrite ?decide_False.
  - by destruct (emit_frame serializeData (changedConnections this) p this mode')
      as (-> & _).
Qed.

Lemma run_pending (evs : list Event) (this : ClipboardMonitor) (mode : Mode) :
  Forall (λ ev, isTimerExpired ev = false) evs →
  m_newData (ran this evs).1 !! mode
  = match lastRequest mode evs with
    | Some payload => Some (deserializeData payload)
    | None => m_newData this !! mode
    end.
Proof.
  revert this. induction evs as [|ev evs IH]; intros this Hevs; simpl; [done|].
  apply Forall_cons in Hevs as [Hev Hevs].
  pose proof (handle_pending this ev mode Hev) as Hstep.
  destruct (handled this ev) as [this1 e1]. simpl in Hstep.
  specialize (IH this1 Hevs).
  destruct (ran this1 evs) as [this2 e2]. simpl in *.
  rewrite IH, lastRequest_cons, Hstep.
  by destruct (lastRequest mode evs).
Qed.

(** X7: whatever is handled before the timer expires, in whatever order, its
    expiry writes the snapshot of the last request for the clipboard, then that
    of the last request for the selection, and nothing else. *)
Theorem X7_flush_order (evs : list Event) :
  Forall (λ ev, isTimerExpired ev = false) evs →
  (timeout (ran initial evs).1).2
  = option_list (SetData Clipboard <$> (deserializeData <$> lastRequest Clipboard evs))
      ++ option_list (SetData Selection <$> (deserializeData <$> lastRequest Selection evs)).
Proof.
  intros Hevs. rewrite timeout_trace.
  pose proof (run_pending evs initial Clipboard Hevs) as Hc.
  pose proof (run_pending evs initial Selection Hevs) as Hs.
  destruct (run_invariant hasLogLevel serializeData deserializeData readSettings
              evs initial pendingInvariant_initial) as [_ Hidle].
  destruct (m_timerSetNewClipboard (ran initial evs).1).
  - rewrite Hc, Hs.
    by destruct (lastRequest Clipboard evs), (lastRequest Selection evs).
  - rewrite Hidle in Hc, Hs by done. rewrite lookup_empty in Hc, Hs.
    by destruct (lastRequest Clipboard evs), (lastRequest Selection evs).
Qed.

(** *** The stored snapshots *)

Lemma changed_lastData_other (p : Platform) (this : ClipboardMonitor) (mode mode' : Mode) :
  mode' ≠ mode →
  m_lastData (changed p this mode').1 !! mode = m_lastData this !! mode.
Proof.
  intros Hne. unfold onClipboardChanged.
  assert (subscript (m_lastData this) mode' !! mode = m_lastData this !! mode) as Hsub.
  { unfold subscript. destruct (m_lastData this !! mode'); [done|].
    by rewrite lookup_insert_ne. }
  destruct (hasSameData _ _); simpl; [done|].
  by rewrite lookup_insert_ne.
Qed.

Lemma emit_lastData_other (n : nat) (p : Platform) (this : ClipboardMonitor)
    (mode mode' : Mode) :
  mode' ≠ mode →
  m_lastData (emit n p this mode').1 !! mode = m_lastData this !! mode.
Proof.
  intros Hne. revert this. induction n as [|n IH]; intros this; simpl; [done|].
  pose proof (changed_lastData_other p this mode mode' Hne) as H1.
  destruct (changed p this mode') as [this1 e1]. simpl in H1.
  specialize (IH this1).
  destruct (emit n p this1 mode') as [this2 e2]. simpl in *. congruence.
Qed.

Lemma handle_lastData (this : ClipboardMonitor) (ev : Event) (mode : Mode) :
  isChangeOf mode ev = false →
  m_lastData (handled this ev).1 !! mode = m_lastData this !! mode.
Proof.
  intros Hev. destruct ev as [message messageCode|p mode'|]; simpl in *.
  - by rewrite received_lastData.
  - apply bool_decide_eq_false in Hev. by apply emit_lastData_other.
  - by destruct (timeout_frame this) as [-> _].
Qed.

(** X8: the snapshot stored for a mode changes only when a change of the
    clipboard is handled for that very mode: not by a message, not by a write
    the monitor applies, not by a change in another mode. *)
Theorem X8_stored_per_mode (this : ClipboardMonitor) (evs : list Event) (mode : Mode) :
  Forall (λ ev, isChangeOf mode ev = false) evs →
  m_lastData (ran this evs).1 !! mode = m_lastData this !! mode.
Proof.
  intros Hevs.
  apply (run_keeps (λ this', m_lastData this' !! mode = m_lastData this !! mode)
           (λ _, True) (λ ev, isChangeOf mode ev = false)); try done.
  intros this' ev Hinv Hev. split; [|done].
  by rewrite handle_lastData.
Qed.

(** X9: the first snapshot seen for a mode that holds a non-metadata format
    with a non-empty value is sent on, whatever messages and timer expiries
    came before: also when it is the echo of a write the monitor has just
    applied for that mode. *)
Theorem X9_first_content_forwarded (evs : list Event) (p : Platform) (mode : Mode)
    (format : string) (v : QVariant) :
  let this := (ran initial evs).1 in
  Forall (λ ev, isChangeOf mode ev = false) evs →
  clipboardData p mode (m_formats this) !! format = Some v →
  startsWith format COPYQ_MIME_PREFIX = false →
  toByteArray v ≠ [] →
  ∃ stored,
    sentMessages (changed p this mode).2 = [(serializeData stored, MonitorClipboardChanged)]
    ∧ m_lastData (changed p this mode).1 !! mode = Some stored
    ∧ stored !! format = Some v.
Proof.
  intros this Hevs Hv Hreal Hfull.
  assert (m_lastData this !! mode = None) as Hnone.
  { unfold this.
    apply (run_keeps (λ this', m_lastData this' !! mode = None)
             (λ _, True) (λ ev, isChangeOf mode ev = false)); try done.
    intros this' ev Hinv Hev. split; [|done]. by rewrite handle_lastData. }
  assert (hasSameData (clipboardData p mode (m_formats this))
                      (default ∅ (m_lastData this !! mode)) = false) as Hnew.
  { destruct (hasSameData _ _) eqn:Hsame; [|done].
    apply hasSameData_true in Hsame as [_ Hvals].
    specialize (Hvals format v Hv Hreal Hfull).
    rewrite Hnone in Hvals. unfold value in Hvals. simpl in Hvals.
    rewrite lookup_empty in Hvals. simpl in Hvals. subst v. done. }
  destruct (onClipboardChanged_changed serializeData p this mode Hnew)
    as (stored & Hrun & Hagree).
  exists stored. rewrite Hrun. simpl. repeat split.
  - apply lookup_insert_eq.
  - rewrite Hagree; [done| |]; intros ->.
    + by rewrite mimeClipboardMode_metadata in Hreal.
    + by rewrite mimeWindowTitle_metadata in Hreal.
Qed.

Lemma emit_none (p : Platform) (this : ClipboardMonitor) (mode : Mode) :
  changedConnections this = 0 →
  emit (changedConnections this) p this mode = (this, []).
Proof. by intros ->. Qed.

(** X10: until a settings message has been handled the clipboard's change
    signal is not connected: changes of the clipboard are not seen, nothing is
    stored, and the monitor sends nothing but pongs. *)
Theorem X10_silent_before_settings (evs : list Event) :
  Forall (λ ev, isSettings ev = false) evs →
  changedConnections (ran initial evs).1 = 0
  ∧ m_lastData (ran initial evs).1 = ∅
  ∧ Forall (λ mc, mc = ([], MonitorPong)) (sentMessages (ran initial evs).2).
Proof.
  intros Hevs.
  enough ((changedConnections (ran initial evs).1 = 0 ∧ m_lastData (ran initial evs).1 = ∅)
          ∧ Forall (λ mc, mc = ([], MonitorPong)) (sentMessages (ran initial evs).2))
    by tauto.
  apply (run_keeps (λ this, changedConnections this = 0 ∧ m_lastData this = ∅)
           (λ t, Forall (λ mc, mc = ([], MonitorPong)) (sentMessages t))
           (λ ev, isSettings ev = false)); try done.
  - intros t1 t2 H1 H2. rewrite sentMessages_app. by apply Forall_app.
  - intros this ev [Hconn Hlast] Hev.
    pose proof (handle_connections hasLogLevel serializeData deserializeData
                  readSettings this ev) as Hc.
    destruct ev as [message messageCode|p mode|]; simpl in *.
    + apply bool_decide_eq_false in Hev. rewrite decide_False in Hc by done.
      rewrite received_lastData, received_sent.
      repeat split; [congruence|done|]. case_decide; repeat constructor.
    + rewrite emit_none by done. simpl. repeat split; done.
    + destruct (timeout_frame this) as [-> _]. rewrite timeout_sent.
      repeat split; [congruence|done..].
Qed.

Lemma contains_lookup `{Countable K} {V} (m : gmap K V) (key : K) :
  contains m key = match m !! key with Some _ => true | None => false end.
Proof.
  unfold contains. destruct (m !! key) eqn:Hk.
  - apply bool_decide_eq_true_2. by eexists.
  - apply bool_decide_eq_false_2. by intros [? ?].
Qed.

Lemma mime_names_differ :
  mimeOwner ≠ mimeClipboardMode ∧ mimeWindowTitle ≠ mimeClipboardMode
  ∧ mimeOwner ≠ mimeWindowTitle.
Proof. repeat split; discriminate. Qed.

(** X11: a snapshot that is sent on keeps every entry it came with, but for the
    mode name, which for the selection and the find buffer is set to the name
    of the mode whatever the snapshot held there.  An owner or a window title
    the snapshot brings is never replaced; the title of the current window is
    added only when the snapshot brings neither. *)
Theorem X11_tags (p : Platform) (this : ClipboardMonitor) (mode : Mode) :
  let data := clipboardData p mode (m_formats this) in
  hasSameData data (default ∅ (m_lastData this !! mode)) = false →
  ∃ stored,
    sentMessages (changed p this mode).2 = [(serializeData stored, MonitorClipboardChanged)]
    ∧ (∀ format, format ≠ mimeClipboardMode → format ≠ mimeWindowTitle →
                 stored !! format = data !! format)
    ∧ stored !! mimeClipboardMode
      = match mode with
        | Clipboard => data !! mimeClipboardMode
        | Selection => Some (VString "selection")
        | FindBuffer => Some (VString "find buffer")
        end
    ∧ stored !! mimeWindowTitle
      = match data !! mimeOwner, data !! mimeWindowTitle, currentWindowTitle p with
        | None, None, Some title => Some (VByteArray (toUtf8 title))
        | _, _, _ => data !! mimeWindowTitle
        end.
Proof.
  intros data Hnew.
  destruct mime_names_differ as (Hom & Hwm & How).
  unfold onClipboardChanged. simpl. rewrite subscript_lookup. fold data. rewrite Hnew.
  eexists. split; [reflexivity|]. rewrite !contains_lookup.
  destruct mode; simpl; rewrite ?lookup_insert_ne by done;
    destruct (data !! mimeOwner) eqn:Ho, (data !! mimeWindowTitle) eqn:Hw,
      (currentWindowTitle p); simpl;
    (split; [intros format Hm Ht; by rewrite ?lookup_insert_ne by done|]);
    by rewrite ?lookup_insert_eq, ?lookup_insert_ne, ?lookup_insert_eq by done.
Qed.

End Handlers.

(** X12: the comparison has a direction.  A format that comes with an empty
    value is no change, while the loss of that same format is one: a snapshot
    can be judged the same as the stored one and the stored one not the same as
    the snapshot. *)
Theorem X12_directed (lastData : gmap string QVariant) (format : string) :
  startsWith format COPYQ_MIME_PREFIX = false →
  lastData !! format = None →
  hasSameData (<[format := VByteArray []]> lastData) lastData = true
  ∧ hasSameData lastData (<[format := VByteArray []]> lastData) = false.
Proof.
  intros Hreal Hnone. split.
  - apply hasSameData_true. split.
    + intros f [v Hv] _. exists v. rewrite lookup_insert_ne; [done|].
      intros <-. congruence.
    + intros f v Hv _ Hfull. destruct (decide (format = f)) as [<-|Hne].
      * rewrite lookup_insert_eq in Hv. injection Hv as <-. done.
      * rewrite lookup_insert_ne in Hv by done. unfold value. by rewrite Hv.
  - destruct (hasSameData lastData _) eqn:Hsame; [|done].
    apply hasSameData_true in Hsame as [Hkeys _].
    destruct (Hkeys format) as [v Hv]; [|done|congruence].
    rewrite lookup_insert_eq. by eexists.
Qed.

(** * The style sheets of a theme *)

Section ThemeStyleSheet.
Import Theme.

Local Arguments String.append !_ _ / : simpl nomatch.

Lemma length_append (a b : string) :
  String.length (a ++ b)%string = String.length a + String.length b.
Proof. induction a as [|c a IH]; simpl; [done|]. by f_equal. Qed.

Lemma append_assoc (a b c : string) : ((a ++ b) ++ c = a ++ (b ++ c))%string.
Proof. induction a as [|x a IH]; simpl; [done|]. by f_equal. Qed.

Lemma index_skip (a b p : string) (n : nat) :
  index (String.length a + n) p (a ++ b)
  = (λ m, String.length a + m) <$> index n p b.
Proof.
  induction a as [|c a IH]; simpl.
  - by destruct (index n p b).
  - rewrite IH. by destruct (index n p b).
Qed.

Lemma substring_skip (a b : string) (n m : nat) :
  substring (String.length a + n) m (a ++ b) = substring n m b.
Proof. induction a as [|c a IH]; simpl; done. Qed.

Lemma substring_start (a b : string) (n : nat) :
  substring 0 (String.length a + n) (a ++ b) = (a ++ substring 0 n b)%string.
Proof. induction a as [|c a IH]; simpl; [done|]. by f_equal. Qed.

Lemma substring_all (s : string) : substring 0 (String.length s) s = s.
Proof. induction s as [|c s IH]; simpl; [done|]. by f_equal. Qed.

Lemma append_empty (s : string) : (s ++ "")%string = s.
Proof. induction s as [|c s IH]; simpl; [done|]. by f_equal. Qed.

Lemma substring_none (s : string) : substring 0 0 s = "".
Proof. by destruct s. Qed.

Lemma replace_skip (a b after : string) (i n : nat) :
  Theme.replace (a ++ b) (String.length a + i) n after
  = (a ++ Theme.replace b i n after)%string.
Proof.
  unfold Theme.replace.
  rewrite substring_start, length_append, append_assoc.
  replace (String.length a + i + n) with (String.length a + (i + n)) by lia.
  rewrite substring_skip.
  replace (String.length a + String.length b - (String.length a + (i + n)))
    with (String.length b - (i + n)) by lia.
  done.
Qed.

Lemma prefix_empty (s : string) : String.prefix "" s = true.
Proof. by destruct s. Qed.

Lemma index_opening (text more : string) :
  index 0 "${" text = None →
  index 0 "${" (text ++ "${" ++ more) = Some (String.length text).
Proof.
  change ("${" ++ more)%string with (String "$" (String "{" more)).
  induction text as [|c text IH].
  { intros _. cbn [String.append index String.prefix String.length].
    destruct (ascii_dec "$" "$") as [_|Hne]; [|done].
    destruct (ascii_dec "{" "{") as [_|Hne]; [|done].
    by rewrite prefix_empty. }
  cbn [String.append index String.prefix String.length].
  destruct (ascii_dec "$" c) as [<-|Hc].
  - destruct text as [|d text]; cbn [String.append index String.prefix String.length].
    + intros _. destruct (ascii_dec "{" "$") as [Heq|_]; [discriminate Heq|].
      destruct (ascii_dec "$" "$") as [_|Hne]; [|done].
      destruct (ascii_dec "{" "{") as [_|Hne]; [|done].
      by rewrite prefix_empty.
    + destruct (ascii_dec "{" d) as [<-|Hd].
      { by rewrite prefix_empty. }
      intros Hnone.
      cbn [String.append index String.prefix String.length] in IH.
      destruct (match ascii_dec "$" d with left _ => _ | right _ => _ end);
        [done|].
      destruct (index 0 "${" text) eqn:Hrest; [done|].
      by rewrite IH.
  - intros Hnone. destruct (index 0 "${" text) eqn:Hrest; [done|].
    by rewrite IH.
Qed.

Lemma index_closing (var more : string) :
  index 0 "}" var = None →
  index 0 "}" (var ++ "}" ++ more) = Some (String.length var).
Proof.
  change ("}" ++ more)%string with (String "}" more).
  induction var as [|c var IH]; cbn [String.append index String.prefix String.length].
  { intros _. destruct (ascii_dec "}" "}") as [_|Hne]; [|done].
    by rewrite prefix_empty. }
  destruct (ascii_dec "}" c) as [<-|Hc].
  { by rewrite prefix_empty. }
  intros Hnone. destruct (index 0 "}" var) eqn:Hrest; [done|].
  by rewrite IH.
Qed.

Lemma prefix_length (p s : string) :
  String.prefix p s = true → String.length p ≤ String.length s.
Proof.
  revert p. induction s as [|c s IH]; intros [|a p]; cbn [String.prefix String.length];
    try done; try lia.
  destruct (ascii_dec a c); [|done]. intros Hp. apply IH in Hp. lia.
Qed.

Lemma index_bounds (n m : nat) (p s : string) :
  index n p s = Some m → n ≤ m ∧ m + String.length p ≤ String.length s.
Proof.
  revert n m. induction s as [|c s IH]; intros n m; cbn [index].
  - destruct n; [|done]. destruct p; [|done]. intros [= <-]. simpl. lia.
  - destruct n as [|n].
    + destruct (String.prefix p (String c s)) eqn:Hp.
      * intros [= <-]. apply prefix_length in Hp. lia.
      * destruct (index 0 p s) as [k|] eqn:Hk; [|done]. intros [= <-].
        apply IH in Hk. simpl. lia.
    + destruct (index n p s) as [k|] eqn:Hk; [|done]. intros [= <-].
      apply IH in Hk. simpl. lia.
Qed.

Lemma length_substring (n m : nat) (s : string) :
  n + m ≤ String.length s → String.length (substring n m s) = m.
Proof.
  revert n m. induction s as [|c s IH]; intros [|n] [|m]; simpl; try lia.
  - intros Hle. rewrite (IH 0 m) by (simpl; lia). done.
  - intros Hle. apply (IH n 0). lia.
  - intros Hle. apply (IH n (S m)). lia.
Qed.

Lemma length_replace (s after : string) (i n : nat) :
  i + n ≤ String.length s →
  String.length (Theme.replace s i n after)
  = String.length s - n + String.length after.
Proof.
  intros Hle. unfold Theme.replace.
  rewrite !length_append, !length_substring by lia. lia.
Qed.

Section Substitution.

Variable colorName : string → string.

(** The loop leaves what lies before its position as it is. *)
Lemma substitute_offset (fuel : nat) (a b : string) (k : nat) :
  substitute colorName fuel (a ++ b) (String.length a + k)
  = (a ++ substitute colorName fuel b k)%string.
Proof.
  revert b k. induction fuel as [|fuel IH]; intros b k; [done|].
  cbn [substitute]. rewrite index_skip.
  destruct (index k "${" b) as [i|]; [|done]. cbn [fmap option_fmap option_map].
  replace (String.length a + i + 2) with (String.length a + (i + 2)) by lia.
  rewrite index_skip.
  destruct (index (i + 2) "}" b) as [j|]; [|done]. cbn [fmap option_fmap option_map].
  rewrite substring_skip.
  replace (String.length a + j - (String.length a + i) - 2) with (j - i - 2) by lia.
  replace (String.length a + j - (String.length a + i) + 1) with (j - i + 1) by lia.
  rewrite replace_skip.
  rewrite <- Nat.add_assoc. apply IH.
Qed.

(** One placeholder, with nothing to expand before it. *)
Lemma substitute_step (fuel : nat) (text var post : string) :
  index 0 "${" text = None → index 0 "}" var = None →
  substitute colorName (S fuel) (text ++ "${" ++ var ++ "}" ++ post) 0
  = (text ++ colorName var ++ substitute colorName fuel post 0)%string.
Proof.
  intros Htext Hvar.
  set (css := (text ++ "${" ++ var ++ "}" ++ post)%string).
  assert (css = ((text ++ "${") ++ var ++ "}" ++ post)%string) as Hcss
    by (unfold css; by rewrite append_assoc).
  assert (String.length (text ++ "${") = String.length text + 2) as Hlen
    by (by rewrite length_append).
  assert (index 0 "${" css = Some (String.length text)) as H1
    by (by apply index_opening).
  assert (index (String.length text + 2) "}" css
          = Some (String.length text + 2 + String.length var)) as H2.
  { rewrite Hcss, <- Hlen.
    rewrite <- (Nat.add_0_r (String.length (text ++ "${"))) at 1.
    rewrite index_skip, index_closing by done. simpl. f_equal. }
  assert (substring (String.length text + 2) (String.length var) css = var) as H3.
  { rewrite Hcss, <- Hlen.
    rewrite <- (Nat.add_0_r (String.length (text ++ "${"))).
    rewrite substring_skip.
    rewrite <- (Nat.add_0_r (String.length var)) at 1.
    by rewrite substring_start, substring_none, append_empty. }
  assert (Theme.replace css (String.length text) (String.length var + 3) (colorName var)
          = (text ++ colorName var ++ post)%string) as H4.
  { assert (css = (text ++ ("${" ++ var ++ "}") ++ post)%string) as ->
      by (unfold css; by rewrite !append_assoc).
    assert (String.length ("${" ++ var ++ "}") = String.length var + 3) as Hmid
      by (rewrite !length_append; simpl; lia).
    rewrite <- (Nat.add_0_r (String.length text)) at 1.
    rewrite replace_skip. f_equal. unfold Theme.replace.
    rewrite substring_none, length_append, <- Hmid.
    replace (0 + String.length ("${" ++ var ++ "}"))
      with (String.length ("${" ++ var ++ "}") + 0) by lia.
    rewrite substring_skip.
    replace (String.length ("${" ++ var ++ "}") + String.length post
             - (String.length ("${" ++ var ++ "}") + 0))
      with (String.length post) by lia.
    by rewrite substring_all. }
  cbn [substitute]. rewrite H1, H2.
  replace (String.length text + 2 + String.length var - String.length text - 2)
    with (String.length var) by lia.
  replace (String.length text + 2 + String.length var - String.length text + 1)
    with (String.length var + 3) by lia.
  rewrite H3, H4.
  rewrite <- (append_assoc text), <- length_append.
  rewrite <- (Nat.add_0_r (String.length (text ++ colorName var))).
  by rewrite substitute_offset, append_assoc.
Qed.

(** The fuel the loop is given is never used up: each round leaves less of the
    text behind the position, and more fuel gives the same result. *)
Lemma substitute_fuel (fuel extra : nat) (css : string) (i : nat) :
  String.length css - i < fuel →
  substitute colorName (fuel + extra) css i = substitute colorName fuel css i.
Proof.
  revert css i. induction fuel as [|fuel IH]; intros css i Hfuel; [lia|].
  cbn [substitute Nat.add].
  destruct (index i "${" css) as [i'|] eqn:Hi; [|done].
  destruct (index (i' + 2) "}" css) as [j|] eqn:Hj; [|done].
  apply index_bounds in Hi as [Hi1 Hi2]. apply index_bounds in Hj as [Hj1 Hj2].
  simpl in Hi2, Hj2.
  apply IH. rewrite length_replace by lia. lia.
Qed.

Lemma substitute_inert (fuel : nat) (rest : string) :
  inert rest → substitute colorName fuel rest 0 = rest.
Proof.
  destruct fuel as [|fuel]; [done|].
  intros [Hplain|(text & tail & -> & Htext & Htail)]; cbn [substitute].
  - by rewrite Hplain.
  - rewrite index_opening by done.
    replace (text ++ "${" ++ tail)%string with ((text ++ "${") ++ tail)%string
      by (by rewrite append_assoc).
    replace (String.length text + 2) with (String.length (text ++ "${") + 0)
      by (rewrite length_append; simpl; lia).
    by rewrite index_skip, Htail.
Qed.

Lemma substitute_template (parts : list (string * string)) (rest : string) (fuel : nat) :
  Forall (λ part, index 0 "${" part.1 = None ∧ index 0 "}" part.2 = None) parts →
  inert rest →
  length parts < fuel →
  substitute colorName fuel (template parts rest) 0 = filled colorName parts rest.
Proof.
  intros Hparts Hrest. revert fuel.
  induction Hparts as [|[text var] parts [Htext Hvar] Hparts IH]; intros fuel Hfuel.
  - by apply substitute_inert.
  - destruct fuel as [|fuel]; [simpl in Hfuel; lia|].
    cbn [template filled]. simpl in Htext, Hvar.
    rewrite substitute_step by done.
    rewrite IH by (simpl in Hfuel; lia). done.
Qed.

Lemma length_template (parts : list (string * string)) (rest : string) :
  length parts ≤ String.length (template parts rest).
Proof.
  induction parts as [|[text var] parts IH]; cbn [template length]; [lia|].
  rewrite !length_append. cbn [String.length]. lia.
Qed.

Variable themeText : string → string.

(** X13: in a text made of placeholders [${var}], each after a text without
    opening, and ended by a text the loop leaves alone, every placeholder is
    replaced by the name of the colour of [var] and nothing else changes: the
    texts between stay as they are, and a colour name is not expanded again
    whatever it holds. *)
Theorem X13_themeStyleSheet_template (name : string) (parts : list (string * string))
    (rest : string) :
  themeText name = template parts rest →
  Forall (λ part, index 0 "${" part.1 = None ∧ index 0 "}" part.2 = None) parts →
  inert rest →
  themeStyleSheet themeText colorName name = filled colorName parts rest.
Proof.
  intros Hcss Hparts Hrest. unfold themeStyleSheet. rewrite Hcss.
  apply substitute_template; [done..|].
  pose proof (length_template parts rest). lia.
Qed.

End Substitution.

End ThemeStyleSheet.

(** * The further properties at sample inputs *)

Lemma X2_witness :
  let evs := [MessageReceived [x41] MonitorChangeClipboard;
              MessageReceived [] MonitorPing;
              ClipboardChanged (holding {["text/plain" := bytes "hello"]}) Clipboard] in
  Forall (λ ev, isTimerExpired ev = false) evs
  ∧ setDataCalls Clipboard (run quiet noBytes plainText undecodable initial evs).2 = [].
Proof.
  intros evs.
  assert (Forall (λ ev, isTimerExpired ev = false) evs) as Hevs
    by (repeat constructor).
  split; [exact Hevs|].
  apply (X2_setData_only_on_expiry quiet noBytes plainText undecodable initial evs
           Clipboard Hevs).
Defined.

Lemma X4_witness :
  onMessageReceived quiet plainText undecodable initial [x41] MonitorClipboardChanged
  = (initial, [Log (UnknownMessageCode MonitorClipboardChanged) LogError]).
Proof.
  apply (X4_unknown_code quiet plainText undecodable initial [x41]
           MonitorClipboardChanged); discriminate.
Defined.

Lemma X7_witness :
  let evs := [MessageReceived [x42] MonitorChangeSelection;
              MessageReceived [x41] MonitorChangeClipboard;
              MessageReceived [] MonitorPing;
              MessageReceived [x43] MonitorChangeClipboard] in
  Forall (λ ev, isTimerExpired ev = false) evs
  ∧ (timeout (run quiet noBytes plainText undecodable initial evs).1).2
    = [SetData Clipboard (plainText [x43]); SetData Selection (plainText [x42])].
Proof.
  intros evs.
  assert (Forall (λ ev, isTimerExpired ev = false) evs) as Hevs
    by (repeat constructor).
  split; [exact Hevs|].
  apply (X7_flush_order quiet noBytes plainText undecodable evs Hevs).
Defined.

Lemma X8_witness :
  let this := having {["text/plain" := bytes "hello"]} in
  let evs := [MessageReceived [] MonitorSettings;
              MessageReceived [x41] MonitorChangeClipboard;
              TimerExpired;
              ClipboardChanged (holding {["text/plain" := bytes "A"]}) Selection] in
  Forall (λ ev, isChangeOf Clipboard ev = false) evs
  ∧ m_lastData (run quiet noBytes plainText undecodable this evs).1 !! Clipboard
    = Some {["text/plain" := bytes "hello"]}.
Proof.
  intros this evs.
  assert (Forall (λ ev, isChangeOf Clipboard ev = false) evs) as Hevs
    by (repeat constructor).
  split; [exact Hevs|].
  apply (X8_stored_per_mode quiet noBytes plainText undecodable this evs Clipboard Hevs).
Defined.

Lemma X9_witness :
  let evs := [MessageReceived [] MonitorSettings;
              MessageReceived [x58] MonitorChangeClipboard;
              TimerExpired] in
  let this := (run quiet noBytes plainText undecodable initial evs).1 in
  let p := holding (plainText [x58]) in
  Forall (λ ev, isChangeOf Clipboard ev = false) evs
  ∧ ∃ stored,
      sentMessages (onClipboardChanged noBytes p this Clipboard).2
      = [(noBytes stored, MonitorClipboardChanged)]
      ∧ m_lastData (onClipboardChanged noBytes p this Clipboard).1 !! Clipboard = Some stored
      ∧ stored !! "text/plain" = Some (VByteArray [x58]).
Proof.
  intros evs this p.
  assert (Forall (λ ev, isChangeOf Clipboard ev = false) evs) as Hevs
    by (repeat constructor).
  split; [exact Hevs|].
  apply (X9_first_content_forwarded quiet noBytes plainText undecodable evs p Clipboard
           "text/plain" (VByteArray [x58]) Hevs); [|reflexivity|discriminate].
  apply lookup_singleton_eq.
Defined.

Lemma X10_witness :
  let evs := [MessageReceived [] MonitorPing;
              ClipboardChanged (holding {["text/plain" := bytes "hello"]}) Clipboard;
              MessageReceived [x41] MonitorChangeClipboard;
              TimerExpired] in
  Forall (λ ev, isSettings ev = false) evs
  ∧ changedConnections (run quiet noBytes plainText undecodable initial evs).1 = 0
  ∧ m_lastData (run quiet noBytes plainText undecodable initial evs).1 = ∅
  ∧ Forall (λ mc, mc = ([], MonitorPong))
           (sentMessages (run quiet noBytes plainText undecodable initial evs).2).
Proof.
  intros evs.
  assert (Forall (λ ev, isSettings ev = false) evs) as Hevs
    by (repeat constructor).
  split; [exact Hevs|].
  apply (X10_silent_before_settings quiet noBytes plainText undecodable evs Hevs).
Defined.

Lemma X11_witness :
  let data := <[mimeOwner := bytes "1"]> {["text/plain" := bytes "hello"]} in
  let p := holding data in
  hasSameData (clipboardData p Selection (m_formats initial))
              (default ∅ (m_lastData initial !! Selection)) = false
  ∧ ∃ stored,
      sentMessages (onClipboardChanged noBytes p initial Selection).2
      = [(noBytes stored, MonitorClipboardChanged)]
      ∧ (∀ format, format ≠ mimeClipboardMode → format ≠ mimeWindowTitle →
                   stored !! format = data !! format)
      ∧ stored !! mimeClipboardMode = Some (VString "selection")
      ∧ stored !! mimeWindowTitle = None.
Proof.
  intros data p.
  assert (hasSameData (clipboardData p Selection (m_formats initial))
                      (default ∅ (m_lastData initial !! Selection)) = false) as Hnew
    by (vm_compute; reflexivity).
  split; [exact Hnew|].
  apply (X11_tags noBytes p initial Selection Hnew).
Defined.

Lemma X12_witness :
  let lastData : gmap string QVariant := {["text/plain" := bytes "hello"]} in
  startsWith "text/html" COPYQ_MIME_PREFIX = false
  ∧ lastData !! "text/html" = None
  ∧ hasSameData (<["text/html" := VByteArray []]> lastData) lastData = true
  ∧ hasSameData lastData (<["text/html" := VByteArray []]> lastData) = false.
Proof.
  intros lastData.
  split; [reflexivity|]. split; [reflexivity|].
  apply (X12_directed lastData "text/html"); reflexivity.
Defined.

Lemma X13_witness :
  let themeText : string → string := λ _, "color:${fg};border:${a}${b" in
  let colorName : string → string := λ var, ("${" ++ var ++ "}!")%string in
  Theme.themeStyleSheet themeText colorName "css" = "color:${fg}!;border:${a}!${b".
Proof.
  intros themeText colorName.
  apply (X13_themeStyleSheet_template colorName themeText "css"
           [("color:", "fg"); (";border:", "a")] "${b").
  - reflexivity.
  - repeat constructor.
  - right. exists "", "b". repeat split.
Defined.
